(** * Scintomatic: the binary spectrum decoder

    A shallow embedding of the spectrum decoder of [Scintomatic.py]
    (methods [interpreter], [bytechunk_interpreter] and
    [byte_reconstructor] of class [Scintomatic]) and the properties of its
    specification that concern it.

    Conventions.  A Python [bytes] object is a [list Z] (iterating over
    [bytes] yields ints, which is what the decoder computes with); Python
    ints are unbounded, hence [Z].  Instance attributes mutated by the
    methods are fields of the record [state], threaded explicitly.  A Python
    exception that leaves a method is an explicit result, together with the
    state as the method left it. *)

From Stdlib Require Import ZArith List Bool Lia.
From Stdlib Require String Ascii DecimalString.
Import ListNotations.
Local Open Scope Z_scope.

(** ** Python built-ins used by the decoder *)

Module Py.

(** [enumerate(l)], counting from [n]. *)
Fixpoint enumerate_from {A : Type} (n : nat) (l : list A) : list (nat * A) :=
  match l with
  | [] => []
  | x :: l' => (n, x) :: enumerate_from (S n) l'
  end.

Definition enumerate {A : Type} (l : list A) : list (nat * A) :=
  enumerate_from 0 l.

(** [sum(l)]: a left fold from 0. *)
Definition sum (l : list Z) : Z := fold_left Z.add l 0.

(** [[0]*n]: the empty list when [n <= 0]. *)
Definition zeros (n : Z) : list Z := repeat 0 (Z.to_nat n).

(** [b.split(sep)] for a one-byte separator: separators removed, empty
    pieces kept, never an empty result. *)
Fixpoint split (sep : Z) (b : list Z) : list (list Z) :=
  match b with
  | [] => [[]]
  | x :: b' =>
      if x =? sep then [] :: split sep b'
      else match split sep b' with
           | c :: cs => (x :: c) :: cs
           | [] => [[x]]
           end
  end.

(** [b.lstrip(c)], [b.rstrip(c)], [b.strip(c)] for a one-byte [c]. *)
Fixpoint lstrip (c : Z) (b : list Z) : list Z :=
  match b with
  | [] => []
  | x :: b' => if x =? c then lstrip c b' else b
  end.

Definition rstrip (c : Z) (b : list Z) : list Z := rev (lstrip c (rev b)).

Definition strip (c : Z) (b : list Z) : list Z := rstrip c (lstrip c b).

(** [b.startswith(p)]. *)
Fixpoint startswith (b p : list Z) {struct p} : bool :=
  match p with
  | [] => true
  | y :: p' =>
      match b with
      | [] => false
      | x :: b' => (x =? y) && startswith b' p'
      end
  end.

(** [b[0:1]] and [b[-1:]]: slices, empty on an empty [b]. *)
Definition first_slice (b : list Z) : list Z := firstn 1 b.

Definition last_slice (b : list Z) : list Z :=
  match rev b with
  | [] => []
  | x :: _ => [x]
  end.

(** [b1 == b2] on bytes. *)
Fixpoint bytes_eqb (b1 b2 : list Z) : bool :=
  match b1, b2 with
  | [], [] => true
  | x :: b1', y :: b2' => (x =? y) && bytes_eqb b1' b2'
  | _, _ => false
  end.

(** [l[-1]] of a list known to be non-empty ([d] is never returned for
    such a list) and [l[-1] = x]. *)
Definition last_item {A : Type} (l : list A) (d : A) : A := last l d.

Fixpoint set_last {A : Type} (l : list A) (x : A) : list A :=
  match l with
  | [] => []
  | [_] => [x]
  | y :: l' => y :: set_last l' x
  end.

(** [bin(n).count("1")]: the set bits of [|n|] (the sign of a negative
    number is printed as a minus sign). *)
Fixpoint pos_ones (p : positive) : Z :=
  match p with
  | xH => 1
  | xO q => pos_ones q
  | xI q => 1 + pos_ones q
  end.

Definition bin_count_ones (n : Z) : Z :=
  match n with
  | Z0 => 0
  | Zpos p => pos_ones p
  | Zneg p => pos_ones p
  end.

(** [int(b)] for a bytes object [b], base 10: surrounding ASCII white
    space is ignored, then an optional sign, then decimal digits, single
    underscores allowed between digits.  [None] stands for [ValueError].
    (The limit that recent interpreters put on the number of digits is not
    modelled.) *)
Definition is_space (x : Z) : bool :=
  (x =? 32) || ((9 <=? x) && (x <=? 13)).

Definition is_digit (x : Z) : bool := (48 <=? x) && (x <=? 57).

Fixpoint lstrip_space (b : list Z) : list Z :=
  match b with
  | [] => []
  | x :: b' => if is_space x then lstrip_space b' else b
  end.

Definition strip_space (b : list Z) : list Z :=
  rev (lstrip_space (rev (lstrip_space b))).

Fixpoint digits (acc : Z) (after_digit : bool) (b : list Z) : option Z :=
  match b with
  | [] => if after_digit then Some acc else None
  | x :: b' =>
      if is_digit x then digits (10 * acc + (x - 48)) true b'
      else if (x =? 95) && after_digit then digits acc false b'
      else None
  end.

Definition int (b : list Z) : option Z :=
  match strip_space b with
  | [] => None
  | x :: b' =>
      if x =? 45 then option_map Z.opp (digits 0 false b')
      else if x =? 43 then digits 0 false b'
      else digits 0 false (x :: b')
  end.

(** A bytes literal written as a string of ASCII characters. *)
Definition bytes (s : String.string) : list Z :=
  map (fun a => Z.of_N (Ascii.N_of_ascii a)) (String.list_ascii_of_string s).

End Py.

(** ** Exceptions that can leave the decoder *)

Inductive exn : Type :=
| IndexError
| AttributeError
| ValueError
| ScintomaticError (datapoints : nat).

(** ** [byte_reconstructor] *)

(** The [for] loop that fills [translated_bytes]; [translated] is the list
    built so far, [break] returns it. *)
Fixpoint translate_loop (LSB_to_MSB_dec_bytes translated_bytes : list Z)
  : list Z :=
  match LSB_to_MSB_dec_bytes with
  | [] => translated_bytes
  | byte :: rest =>
      if byte =? 253 then translate_loop rest (translated_bytes ++ [13])
      else if byte =? 254 then translate_loop rest (translated_bytes ++ [35])
      else if byte =? 252 then translated_bytes
      else translate_loop rest (translated_bytes ++ [byte])
  end.

Definition byte_reconstructor (LSB_to_MSB_dec_bytes : list Z) : Z :=
  let translated_bytes := translate_loop LSB_to_MSB_dec_bytes [] in
  let translated_bytes :=
    map (fun '(bytenum, byteval) => byteval * 250 ^ Z.of_nat bytenum)
        (Py.enumerate translated_bytes) in
  Py.sum translated_bytes.

(** ** [bytechunk_interpreter] *)

(** The [while chunkindex < len(decchunk)] loop of a chunk that starts with
    251.  [rest] is [decchunk[chunkindex:]]: the loop only ever looks at
    [decchunk[chunkindex]], [decchunk[chunkindex+1]] and
    [decchunk[chunkindex:]], and [chunkindex += 2] drops two bytes of it.
    The result is [ydata] as the loop leaves it, and the exception that
    ended it, if any ([decchunk[chunkindex+1]] past the end is an
    [IndexError], raised before [ydata] is extended). *)
Fixpoint zero_run_loop (rest ydata : list Z) : list Z * option exn :=
  match rest with
  | [] => (ydata, None)
  | byte :: after =>
      if byte =? 251 then
        match after with
        | [] => (ydata, Some IndexError)
        | count :: rest' =>
            zero_run_loop rest' (ydata ++ Py.zeros (byte_reconstructor [count]))
        end
      else if byte =? 252 then (ydata, None)
      else (ydata ++ [byte_reconstructor rest], None)
  end.

(** The body of the [for] loop over the chunks. *)
Definition interpret_chunk (decchunk ydata : list Z) : list Z * option exn :=
  match decchunk with
  | [] => (ydata, None)
  | first :: _ =>
      if first =? 251 then zero_run_loop decchunk ydata
      else (ydata ++ [byte_reconstructor decchunk], None)
  end.

(** [bytechunk_interpreter(bytechunks)], acting on [spectrumpanel.ydata].
    Every chunk is a [bytes] object, so [list(bytechunk)] never raises the
    [TypeError] that the method is prepared for. *)
Fixpoint bytechunk_interpreter (bytechunks : list (list Z)) (ydata : list Z)
  : list Z * option exn :=
  match bytechunks with
  | [] => (ydata, None)
  | bytechunk :: more =>
      match interpret_chunk bytechunk ydata with
      | (ydata', None) => bytechunk_interpreter more ydata'
      | (ydata', Some e) => (ydata', Some e)
      end
  end.

(** ** [interpreter] *)

(** The byte strings that [interpreter] looks for at the start of a line. *)
Module Marker.
Import String.
Local Open Scope string_scope.

Definition start_time : list Z := Py.bytes "Start Time ".
Definition time_count : list Z := Py.bytes "{t ".
Definition start_binary : list Z := Py.bytes "=>Start(binary)".
Definition end_binary : list Z := Py.bytes "=>End(binary)".
Definition bitsum : list Z := Py.bytes "Bitsum:".
End Marker.

(** The text shown in the spectrum panel's progress ring. *)
Inductive ring_text : Type :=
| RingBlank      (* ' ' *)
| RingCheck      (* U+2713 *)
| RingApprox     (* U+2248 *)
| RingBang.      (* U+2757 *)

(** The attributes of the [Scintomatic] object that the decoder reads and
    writes.  [interrupted_bytechunk] is first assigned by the
    [=>Start(binary)] branch; [None] is the attribute not assigned yet.
    [ydata] is [spectrumpanel.ydata]. *)
Record state : Type := mkState {
  binaryblock : bool;
  interrupted_bytechunk : option (list Z);
  ydata : list Z;
  bitsum : Z;
  prevline : list Z;
  progress_text : ring_text
}.

(** The object as [__init__] leaves it. *)
Definition initial_state : state :=
  mkState false None [] 0 [] RingBlank.

(** How a call of [interpreter] ends. *)
Inductive outcome : Type :=
| Finished                (* ran to the end; [prevline] was updated *)
| ReturnedFalse           (* nothing but newlines was received *)
| Raised (e : exn)
| NotEmbedded.            (* the time-readout and preamble branches *)

(** Lines 716-729: what [interpreter] does to the list of chunks when a
    chunk was held back by the previous call ([interrupted] is not
    empty).  [Py.split] never returns the empty list, so the last case of
    the inner match is never met. *)
Definition merge_interrupted (interrupted rawbytes : list Z)
  (bytechunks : list (list Z)) : list (list Z) :=
  if negb (Py.bytes_eqb interrupted []) then
    if Py.bytes_eqb (Py.first_slice rawbytes) [255] then
      interrupted :: bytechunks
    else if Py.bytes_eqb (Py.first_slice rawbytes) [252] then
      interrupted :: bytechunks
    else
      match bytechunks with
      | c :: cs => (interrupted ++ c) :: cs
      | [] => []
      end
  else bytechunks.

(** Lines 731-740: the last chunk is held back, and an empty chunk left in
    its place, unless the buffer ends with 255 or 252.  The result is the
    list of chunks and the new value of [interrupted_bytechunk]. *)
Definition hold_last (rawbytes : list Z) (bytechunks : list (list Z))
  : list (list Z) * list Z :=
  if negb (Py.bytes_eqb (Py.last_slice rawbytes) [255]
           || Py.bytes_eqb (Py.last_slice rawbytes) [252]) then
    (Py.set_last bytechunks [], Py.last_item bytechunks [])
  else
    (bytechunks, []).

(** Lines 712-740: the chunks handed to [bytechunk_interpreter] and the new
    value of [interrupted_bytechunk], from the old value and the raw
    buffer.  ([scintcomm.tobytes] is the identity on a [bytes] object: it
    dispatches on the type of its argument to [_bytes_tobytes].) *)
Definition reassemble (interrupted rawbytes : list Z)
  : list (list Z) * list Z :=
  let bytechunks := Py.split 255 rawbytes in
  let bytechunks := merge_interrupted interrupted rawbytes bytechunks in
  hold_last rawbytes bytechunks.

(** The [elif self.binaryblock:] branch. *)
Definition binary_branch (st : state) (rawbytes receivedbytes : list Z)
  : state * outcome :=
  match interrupted_bytechunk st with
  | None => (st, Raised AttributeError)
  | Some interrupted =>
      let '(bytechunks, held) := reassemble interrupted rawbytes in
      match bytechunk_interpreter bytechunks (ydata st) with
      | (ydata', Some e) =>
          (mkState (binaryblock st) (Some held) ydata' (bitsum st)
                   (prevline st) (progress_text st),
           Raised e)
      | (ydata', None) =>
          (mkState (binaryblock st) (Some held) ydata'
                   (bitsum st + Py.sum (map Py.bin_count_ones rawbytes))
                   receivedbytes (progress_text st),
           Finished)
      end
  end.

(** The [=>Start(binary)] branch. *)
Definition start_binary_branch (st : state) (receivedbytes : list Z)
  : state * outcome :=
  (mkState true (Some []) (ydata st) (bitsum st) receivedbytes
           (progress_text st),
   Finished).

(** The [=>End(binary)] branch. *)
Definition end_binary_branch (st : state) (receivedbytes : list Z)
  : state * outcome :=
  match interrupted_bytechunk st with
  | None =>
      (mkState false None (ydata st) (bitsum st) (prevline st)
               (progress_text st),
       Raised AttributeError)
  | Some interrupted =>
      match bytechunk_interpreter [interrupted] (ydata st) with
      | (ydata', Some e) =>
          (mkState false (Some interrupted) ydata' (bitsum st) (prevline st)
                   (progress_text st),
           Raised e)
      | (ydata', None) =>
          if negb (Nat.eqb (length ydata') 1024) then
            (mkState false (Some interrupted) ydata' (bitsum st)
                     (prevline st) RingBang,
             Raised (ScintomaticError (length ydata')))
          else
            (mkState false (Some interrupted) ydata' (bitsum st)
                     receivedbytes (progress_text st),
             Finished)
      end
  end.

(** The [Bitsum:] branch. *)
Definition bitsum_branch (st : state) (receivedbytes : list Z)
  : state * outcome :=
  match Py.int (skipn 7 receivedbytes) with
  | None => (st, Raised ValueError)
  | Some theirbitsum =>
      (mkState (binaryblock st) (interrupted_bytechunk st) (ydata st)
               (bitsum st) receivedbytes
               (if theirbitsum =? bitsum st then RingCheck else RingApprox),
       Finished)
  end.

(** [interpreter], for a buffer [rawbytes] taken from the queue (with an
    empty queue the method returns at once).  The two branches for the
    time readout and the preamble ([Start Time ] and [{t ]) drive the plot
    panels through regular expressions; they are not part of the decoder
    and are not embedded: the model stops there with [NotEmbedded].  Qt
    widget calls are taken not to raise. *)
Definition interpreter (st : state) (rawbytes : list Z) : state * outcome :=
  let receivedbytes := Py.strip 10 rawbytes in
  if Py.bytes_eqb receivedbytes [] then (st, ReturnedFalse)
  else if Py.startswith receivedbytes Marker.start_time then
    (st, NotEmbedded)
  else if Py.startswith receivedbytes Marker.time_count then
    (st, NotEmbedded)
  else if Py.startswith receivedbytes Marker.start_binary then
    start_binary_branch st receivedbytes
  else if Py.startswith receivedbytes Marker.end_binary then
    end_binary_branch st receivedbytes
  else if Py.startswith receivedbytes Marker.bitsum then
    bitsum_branch st receivedbytes
  else if binaryblock st then
    binary_branch st rawbytes receivedbytes
  else
    (mkState (binaryblock st) (interrupted_bytechunk st) (ydata st)
             (bitsum st) receivedbytes (progress_text st),
     Finished).

(** Successive calls of [interpreter], one per buffer, as the signal/slot
    connection makes them: an exception ends one call, not the sequence. *)
Fixpoint interpreter_calls (st : state) (buffers : list (list Z)) : state :=
  match buffers with
  | [] => st
  | rawbytes :: more => interpreter_calls (fst (interpreter st rawbytes)) more
  end.

(** ** Definitions used to state the properties *)

(** The value a byte stands for in [byte_reconstructor] (its two
    substitutions); 252 ends the scan and has no value. *)
Definition translate_byte (byte : Z) : Z :=
  if byte =? 253 then 13 else if byte =? 254 then 35 else byte.

(** The bytes strictly before the first 252. *)
Fixpoint before_252 (l : list Z) : list Z :=
  match l with
  | [] => []
  | byte :: rest => if byte =? 252 then [] else byte :: before_252 rest
  end.

(** The positional value of the specification: the sum over the positions
    [i] of [value[i] * 250^i]. *)
Definition positional_value (values : list Z) : Z :=
  fold_right Z.add 0
    (map (fun i => nth i values 0 * 250 ^ Z.of_nat i) (seq 0 (length values))).

(** Modelled from the spec: the wire byte of a base-250 digit.  The
    repository holds no encoder (the instrument produces the bytes); the
    digits 13 and 35 travel as the bytes 253 and 254, every other digit as
    itself. *)
Definition wire_byte (digit : Z) : Z :=
  if digit =? 13 then 253 else if digit =? 35 then 254 else digit.

(** Modelled from the spec: the base-250 digits of [v], least significant
    first, as wire bytes; [fuel] bounds the number of digits. *)
Fixpoint encode_digits (fuel : nat) (v : Z) : list Z :=
  match fuel with
  | O => []
  | S fuel' =>
      if v <=? 0 then []
      else wire_byte (v mod 250) :: encode_digits fuel' (v / 250)
  end.

(** Modelled from the spec: the encoding of a count [v].  A number below
    [2^k] has at most [k] base-250 digits, so the fuel is never used up. *)
Definition encode (v : Z) : list Z :=
  encode_digits (S (Z.to_nat (Z.log2 v))) v.

(** The entries one chunk contributes, whatever [ydata] holds. *)
Definition chunk_entries (bytechunk : list Z) : list Z :=
  fst (interpret_chunk bytechunk []).

(** A buffer that [interpreter] hands to the binary branch when
    [binaryblock] is set: something other than newlines, and none of the
    text markers in front. *)
Definition is_binary_data (rawbytes : list Z) : bool :=
  let receivedbytes := Py.strip 10 rawbytes in
  negb (Py.bytes_eqb receivedbytes [])
  && negb (Py.startswith receivedbytes Marker.start_time)
  && negb (Py.startswith receivedbytes Marker.time_count)
  && negb (Py.startswith receivedbytes Marker.start_binary)
  && negb (Py.startswith receivedbytes Marker.end_binary)
  && negb (Py.startswith receivedbytes Marker.bitsum).

(** A chunk that [bytechunk_interpreter] does not skip. *)
Definition nonempty_chunk (bytechunk : list Z) : bool :=
  negb (Py.bytes_eqb bytechunk []).

(** The object after [=>Start(binary)] on a fresh object. *)
Definition started_state : state :=
  fst (interpreter initial_state Marker.start_binary).

(** ** The spectrum panel *)

(** The data attributes of [SpectrumPanel] that [bytechunk_interpreter]
    and [saveData] use.  [xdata] is a list after [reinit] and a [range]
    after [bytechunk_interpreter]; both are the list of their items
    here. *)
Record spectrumpanel : Type := mkPanel {
  panel_xdata : list Z;
  panel_ydata : list Z
}.

(** [range(0, n)]. *)
Definition range (n : nat) : list Z := map Z.of_nat (seq 0 n).

(** [PlotPanel.reinit], on the data attributes. *)
Definition reinit : spectrumpanel := mkPanel [] [].

(** [bytechunk_interpreter] with its last lines: when the loop over the
    chunks has run to its end, [xdata] becomes [range(0, len(ydata))]; an
    exception in the loop leaves [xdata] as it was. *)
Definition bytechunk_interpreter_panel (bytechunks : list (list Z))
  (panel : spectrumpanel) : spectrumpanel * option exn :=
  match bytechunk_interpreter bytechunks (panel_ydata panel) with
  | (ydata', None) => (mkPanel (range (length ydata')) ydata', None)
  | (ydata', Some e) => (mkPanel (panel_xdata panel) ydata', Some e)
  end.

(** [str(n)] of an int, as ASCII codes. *)
Definition str_int (n : Z) : list Z :=
  Py.bytes (DecimalString.NilZero.string_of_int (Z.to_int n)).

(** The [for channel, counts in zip(self.xdata, self.ydata)] loop that
    ends [SpectrumPanel.saveData]: the data lines written to the file, one
    per pair, [f"{channel}\t{counts}\n"].  (The header lines in front of
    them hold label texts and the time of day.) *)
Definition saveData_rows (panel : spectrumpanel) : list (list Z) :=
  map (fun '(channel, counts) =>
         str_int channel ++ [9] ++ str_int counts ++ [10])
      (combine (panel_xdata panel) (panel_ydata panel)).

(** ** The time readout branch of [interpreter] *)

(** The attributes that the [{t ] branch reads and writes: the data of the
    time panel, [prevtime] and [non_sec_mode], the state of the panel's
    autosave switch, and the recordings that [TimePanel.autosave] has
    handed to [saveData] (latest first; writing the file is taken to
    succeed). *)
Record timereadout : Type := mkTime {
  time_xdata : list Z;
  time_ydata : list Z;
  prevtime : Z;
  non_sec_mode : bool;
  autosave_on : bool;
  autosaved : list (list Z * list Z)
}.

(** The time attributes as [__init__] leaves them. *)
Definition initial_timereadout (switch : bool) : timereadout :=
  mkTime [] [] (-1) false switch [].

(** The character class of [regex_time]: a space or a digit. *)
Definition in_time_class (x : Z) : bool :=
  (x =? 32) || ((48 <=? x) && (x <=? 57)).

(** The longest run of class characters in front of [b], and the rest. *)
Fixpoint span_time_class (b : list Z) : list Z * list Z :=
  match b with
  | [] => ([], [])
  | x :: b' =>
      if in_time_class x then
        let '(run, rest) := span_time_class b' in (x :: run, rest)
      else ([], b)
  end.

(** A match of [regex_time], that is of "{t", a run of class characters,
    "R:" and another run, at the start of [b]; the result is the two
    groups.  Both runs are as long as they can be: the byte behind a
    shorter first run is a class character, not the R that must follow, so
    no shorter run gives a match that the longest does not give. *)
Definition regex_time_match_here (b : list Z) : option (list Z * list Z) :=
  if Py.startswith b [123; 116] then             (* "{t" *)
    let '(rawtime, rest) := span_time_class (skipn 2 b) in
    if Py.startswith rest [82; 58] then          (* "R:" *)
      Some (rawtime, fst (span_time_class (skipn 2 rest)))
    else None
  else None.

(** [regex_time.findall(b)[0]]: the leftmost match; [None] stands for the
    [IndexError] of an empty result. *)
Fixpoint regex_time_first (b : list Z) : option (list Z * list Z) :=
  match regex_time_match_here b with
  | Some groups => Some groups
  | None =>
      match b with
      | [] => None
      | _ :: b' => regex_time_first b'
      end
  end.

(** [l[-1]]; [None] stands for [IndexError]. *)
Definition last_opt (l : list Z) : option Z :=
  match rev l with
  | [] => None
  | x :: _ => Some x
  end.

(** [TimePanel.autosave] followed by [reinit], on the attributes above. *)
Definition time_autosave_reinit (tp : timereadout) : timereadout :=
  mkTime [] [] (prevtime tp) false (autosave_on tp)
         (if autosave_on tp && negb (Nat.eqb (length (time_ydata tp)) 0)
          then (time_xdata tp, time_ydata tp) :: autosaved tp
          else autosaved tp).

(** The [elif receivedbytes.startswith(b'{t '):] branch, up to the
    assignment of [prevtime].  (The [try] block behind it only sets a label
    and catches what it raises.  The plot and label calls are taken not to
    raise; the plot is handed the two lists, which have the same length in
    the properties below whenever it is reached.) *)
Definition time_count_branch (tp : timereadout) (receivedbytes : list Z)
  : timereadout * outcome :=
  match regex_time_first receivedbytes with
  | None => (tp, Raised IndexError)
  | Some (rawtime, counts) =>
      match Py.int rawtime with
      | None => (tp, Raised ValueError)
      | Some t =>
          let tp1 :=
            if t <? prevtime tp then time_autosave_reinit tp
            else if t =? prevtime tp then
              mkTime (time_xdata tp) (time_ydata tp) (prevtime tp) true
                     (autosave_on tp) (autosaved tp)
            else tp in
          match (if non_sec_mode tp1
                 then option_map (fun x => x + 1) (last_opt (time_xdata tp1))
                 else Some t) with
          | None => (tp1, Raised IndexError)
          | Some x =>
              match Py.int counts with
              | None =>
                  (mkTime (time_xdata tp1 ++ [x]) (time_ydata tp1)
                          (prevtime tp1) (non_sec_mode tp1)
                          (autosave_on tp1) (autosaved tp1),
                   Raised ValueError)
              | Some c =>
                  (mkTime (time_xdata tp1 ++ [x]) (time_ydata tp1 ++ [c])
                          t (non_sec_mode tp1)
                          (autosave_on tp1) (autosaved tp1),
                   Finished)
              end
          end
      end
  end.

(** Consecutive entries grow. *)
Fixpoint increasing (l : list Z) : Prop :=
  match l with
  | a :: more =>
      match more with
      | b :: _ => a < b /\ increasing more
      | [] => True
      end
  | [] => True
  end.

(** What the time branch keeps true: an empty time axis goes with a
    negative [prevtime] and seconds mode. *)
Definition time_axis_ready (tp : timereadout) : Prop :=
  time_xdata tp = [] -> prevtime tp < 0 /\ non_sec_mode tp = false.

(** The time axis grows, and in seconds mode it ends with [prevtime]. *)
Definition time_axis_ordered (tp : timereadout) : Prop :=
  increasing (time_xdata tp)
  /\ (non_sec_mode tp = false ->
      forall x, last_opt (time_xdata tp) = Some x -> x = prevtime tp).

(** ** Definitions used to state further properties *)

(** [sep.join(chunks)] for a one-byte separator. *)
Fixpoint bytes_join (sep : Z) (chunks : list (list Z)) : list Z :=
  match chunks with
  | [] => []
  | [c] => c
  | c :: cs => c ++ sep :: bytes_join sep cs
  end.

(** The bytes of a buffer that are not the separator. *)
Definition without_separators (rawbytes : list Z) : list Z :=
  filter (fun x => negb (x =? 255)) rawbytes.

(** A chunk made of zero-run pairs (251, count) only. *)
Definition zero_run_pairs (counts : list Z) : list Z :=
  flat_map (fun count => [251; count]) counts.

(** A byte whose value in [byte_reconstructor] is a base-250 digit from 0
    to 249. *)
Definition is_digit_byte (byte : Z) : Prop :=
  0 <= byte <= 249 \/ byte = 253 \/ byte = 254.

(** The held chunk, if the attribute is set, holds no separator. *)
Definition fragment_has_no_separator (st : state) : Prop :=
  match interrupted_bytechunk st with
  | None => True
  | Some interrupted => ~ In 255 interrupted
  end.

(** Successive calls of the binary branch, as [interpreter] makes them for
    buffers that reach it; the outcome is that of the last call. *)
Fixpoint binary_calls (st : state) (buffers : list (list Z))
  : state * outcome :=
  match buffers with
  | [] => (st, Finished)
  | [rawbytes] => binary_branch st rawbytes (Py.strip 10 rawbytes)
  | rawbytes :: more =>
      binary_calls (fst (binary_branch st rawbytes (Py.strip 10 rawbytes)))
                   more
  end.

(** No cut between two consecutive buffers touches an end-of-stream byte:
    no buffer but the last ends with 252, no buffer but the first starts
    with it. *)
Fixpoint cuts_clear_of_252 (buffers : list (list Z)) : Prop :=
  match buffers with
  | b1 :: more =>
      match more with
      | b2 :: _ =>
          Py.last_slice b1 <> [252] /\ Py.first_slice b2 <> [252]
          /\ cuts_clear_of_252 more
      | [] => True
      end
  | [] => True
  end.

(** A buffer whose line starts with none of [Start Time ], [{t ],
    [=>Start(binary)] and [=>End(binary)]: it takes neither a branch that
    is not embedded nor one that opens or closes a binary block. *)
Definition keeps_block_state (rawbytes : list Z) : bool :=
  let receivedbytes := Py.strip 10 rawbytes in
  negb (Py.startswith receivedbytes Marker.start_time)
  && negb (Py.startswith receivedbytes Marker.time_count)
  && negb (Py.startswith receivedbytes Marker.start_binary)
  && negb (Py.startswith receivedbytes Marker.end_binary).

(** The Horner form of the positional value, for the proofs. *)
Fixpoint horner (values : list Z) : Z :=
  match values with
  | [] => 0
  | v :: rest => v + 250 * horner rest
  end.

(** ** Tactics *)

(** Evaluates the tests of [interpreter] on a line with a known marker in
    front. *)
Ltac dispatch_on_marker :=
  repeat match goal with
         | |- context [Py.bytes_eqb (?m ++ ?r) []] =>
             let v := eval cbv in (Py.bytes_eqb (m ++ r) []) in
             change (Py.bytes_eqb (m ++ r) []) with v
         | |- context [Py.startswith (?m ++ ?r) ?p] =>
             let v := eval cbv in (Py.startswith (m ++ r) p) in
             change (Py.startswith (m ++ r) p) with v
         end;
  cbv beta iota.

(** Two lists of chunks that differ by empty chunks and by the grouping of
    their parts. *)
Ltac same_nonempty_chunks :=
  rewrite ?filter_app;
  cbn [filter nonempty_chunk Py.bytes_eqb negb app];
  rewrite <- ?app_assoc, ?app_nil_r;
  reflexivity.

(** * Properties *)

(** ** [byte_reconstructor] as a Horner scheme *)

Lemma sum_from (l : list Z) (a : Z) :
  fold_left Z.add l a = a + Py.sum l.
Proof.
  unfold Py.sum. revert a.
  induction l as [|x l IH]; intros a; simpl.
  - lia.
  - rewrite (IH (a + x)), (IH x). lia.
Qed.

Lemma sum_cons (x : Z) (l : list Z) : Py.sum (x :: l) = x + Py.sum l.
Proof. unfold Py.sum at 1. simpl. apply sum_from. Qed.

Lemma sum_enumerate_from (n : nat) (l : list Z) :
  Py.sum (map (fun '(bytenum, byteval) => byteval * 250 ^ Z.of_nat bytenum)
              (Py.enumerate_from n l))
  = 250 ^ Z.of_nat n * horner l.
Proof.
  revert n. induction l as [|x l IH]; intros n;
    cbn [Py.enumerate_from map horner].
  - unfold Py.sum. simpl. ring.
  - rewrite sum_cons, IH.
    replace (Z.of_nat (S n)) with (Z.of_nat n + 1) by lia.
    rewrite Z.pow_add_r by lia. change (250 ^ 1) with 250. ring.
Qed.

Lemma translate_loop_acc (l acc : list Z) :
  translate_loop l acc = acc ++ translate_loop l [].
Proof.
  revert acc. induction l as [|b l IH]; intros acc; simpl.
  - now rewrite app_nil_r.
  - destruct (b =? 253); [|destruct (b =? 254); [|destruct (b =? 252)]];
      try (rewrite (IH (acc ++ _)), (IH [_]), <- app_assoc; reflexivity).
    now rewrite app_nil_r.
Qed.

Lemma translate_loop_before_252 (l : list Z) :
  translate_loop l [] = map translate_byte (before_252 l).
Proof.
  induction l as [|b l IH]; [reflexivity|].
  cbn [translate_loop before_252 app].
  destruct (b =? 252) eqn:E2.
  - apply Z.eqb_eq in E2. subst b. reflexivity.
  - cbn [map]. unfold translate_byte at 1.
    destruct (b =? 253); [|destruct (b =? 254)];
      rewrite translate_loop_acc, IH; reflexivity.
Qed.

Lemma byte_reconstructor_horner (l : list Z) :
  byte_reconstructor l = horner (map translate_byte (before_252 l)).
Proof.
  unfold byte_reconstructor, Py.enumerate.
  rewrite sum_enumerate_from, translate_loop_before_252.
  change (250 ^ Z.of_nat 0) with 1. apply Z.mul_1_l.
Qed.

Lemma positional_from (values : list Z) (n : nat) :
  fold_right Z.add 0
    (map (fun i => nth i values 0 * 250 ^ Z.of_nat (n + i))
         (seq 0 (length values)))
  = 250 ^ Z.of_nat n * horner values.
Proof.
  revert n. induction values as [|v values IH]; intros n.
  - simpl. ring.
  - cbn [length seq map fold_right horner nth].
    rewrite <- seq_shift, map_map.
    rewrite (map_ext _ (fun i => nth i values 0 * 250 ^ Z.of_nat (S n + i))).
    + rewrite IH. replace (n + 0)%nat with n by lia.
      replace (Z.of_nat (S n)) with (Z.of_nat n + 1) by lia.
      rewrite Z.pow_add_r by lia. change (250 ^ 1) with 250. ring.
    + intros i. cbn beta. cbn [nth].
      now replace (n + S i)%nat with (S n + i)%nat by lia.
Qed.

Lemma positional_value_horner (values : list Z) :
  positional_value values = horner values.
Proof.
  unfold positional_value.
  rewrite <- (Z.mul_1_l (horner values)).
  change 1 with (250 ^ Z.of_nat 0) at 1.
  now rewrite <- positional_from.
Qed.

Lemma before_252_idem (l : list Z) : before_252 (before_252 l) = before_252 l.
Proof.
  induction l as [|b l IH]; simpl; [reflexivity|].
  destruct (b =? 252) eqn:E; simpl; [reflexivity|].
  now rewrite E, IH.
Qed.

Lemma before_252_app_252 (l post : list Z) :
  before_252 (before_252 l ++ 252 :: post) = before_252 l.
Proof.
  induction l as [|b l IH]; simpl; [reflexivity|].
  destruct (b =? 252) eqn:E; simpl; [reflexivity|].
  now rewrite E, IH.
Qed.

(** C8. [byte_reconstructor] ignores the first 252 and every byte after it:
    its result is the positional base-250 value of the translated bytes
    strictly before the first 252; bytes put after a 252 change nothing; a
    list that starts with 252, like the empty list, reconstructs to 0. *)
Theorem byte_reconstructor_stops_at_252 :
  (forall l : list Z,
      byte_reconstructor l
      = positional_value (map translate_byte (before_252 l)))
  /\ (forall l post : list Z,
         byte_reconstructor (before_252 l ++ 252 :: post)
         = byte_reconstructor (before_252 l))
  /\ (forall post : list Z, byte_reconstructor (252 :: post) = 0)
  /\ byte_reconstructor [] = 0.
Proof.
  split; [|split; [|split]].
  - intros l. now rewrite positional_value_horner, byte_reconstructor_horner.
  - intros l post.
    now rewrite !byte_reconstructor_horner, before_252_app_252, before_252_idem.
  - intros post. now rewrite byte_reconstructor_horner.
  - reflexivity.
Qed.

(** ** Round trip of the base-250 encoding *)

Lemma translate_wire_byte (d : Z) :
  0 <= d < 250 -> translate_byte (wire_byte d) = d /\ (wire_byte d =? 252) = false.
Proof.
  intros Hd. unfold translate_byte, wire_byte.
  destruct (d =? 13) eqn:E13; [apply Z.eqb_eq in E13; subst d; now split|].
  destruct (d =? 35) eqn:E35; [apply Z.eqb_eq in E35; subst d; now split|].
  destruct (d =? 253) eqn:E253; [apply Z.eqb_eq in E253; lia|].
  destruct (d =? 254) eqn:E254; [apply Z.eqb_eq in E254; lia|].
  split; [reflexivity|]. apply Z.eqb_neq. lia.
Qed.

Lemma encode_digits_horner (fuel : nat) (v : Z) :
  0 <= v < 2 ^ Z.of_nat fuel ->
  horner (map translate_byte (before_252 (encode_digits fuel v))) = v.
Proof.
  revert v. induction fuel as [|fuel IH]; intros v Hv.
  - change (2 ^ Z.of_nat 0) with 1 in Hv. simpl. lia.
  - cbn [encode_digits].
    destruct (v <=? 0) eqn:E0.
    + apply Z.leb_le in E0. simpl. lia.
    + apply Z.leb_gt in E0.
      assert (Hmod : 0 <= v mod 250 < 250) by (apply Z.mod_pos_bound; lia).
      destruct (translate_wire_byte _ Hmod) as [Ht H252].
      cbn [before_252]. rewrite H252. cbn [map horner]. rewrite Ht, IH.
      * pose proof (Z.div_mod v 250). lia.
      * replace (Z.of_nat (S fuel)) with (Z.of_nat fuel + 1) in Hv by lia.
        rewrite Z.pow_add_r in Hv by lia. change (2 ^ 1) with 2 in Hv.
        split; [apply Z.div_pos; lia|].
        apply Z.div_lt_upper_bound; lia.
Qed.

Lemma encode_horner (v : Z) :
  0 < v -> horner (map translate_byte (before_252 (encode v))) = v.
Proof.
  intros Hv. unfold encode. apply encode_digits_horner.
  destruct (Z.log2_spec v Hv) as [_ Hlt].
  pose proof (Z.log2_nonneg v).
  replace (Z.of_nat (S (Z.to_nat (Z.log2 v)))) with (Z.succ (Z.log2 v)) by lia.
  lia.
Qed.

Lemma encode_has_no_252 (fuel : nat) (v : Z) :
  before_252 (encode_digits fuel v) = encode_digits fuel v.
Proof.
  revert v. induction fuel as [|fuel IH]; intros v; [reflexivity|].
  cbn [encode_digits]. destruct (v <=? 0) eqn:E0; [reflexivity|].
  apply Z.leb_gt in E0.
  assert (Hmod : 0 <= v mod 250 < 250) by (apply Z.mod_pos_bound; lia).
  destruct (translate_wire_byte _ Hmod) as [_ H252].
  cbn [before_252]. now rewrite H252, IH.
Qed.

(** C6. Round trip: for every [v] from 1 to 15624999, the little-endian
    base-250 digit bytes of [v] (13 and 35 sent as 253 and 254) are
    reconstructed to [v], by [byte_reconstructor] and by the positional
    value of the specification alike. *)
Theorem encode_roundtrip (v : Z) :
  1 <= v <= 15624999 ->
  byte_reconstructor (encode v) = v
  /\ positional_value (map translate_byte (encode v)) = v.
Proof.
  intros Hv. split.
  - rewrite byte_reconstructor_horner. apply encode_horner. lia.
  - rewrite positional_value_horner.
    unfold encode at 1. rewrite <- encode_has_no_252.
    apply encode_horner. lia.
Qed.

Lemma encode_roundtrip_witness :
  1 <= 300 <= 15624999
  /\ encode 300 = [50; 1]
  /\ byte_reconstructor (encode 300) = 300
  /\ positional_value (map translate_byte (encode 300)) = 300.
Proof.
  split; [lia|]. split; [reflexivity|].
  apply (encode_roundtrip 300). lia.
Defined.

Example encode_13 : encode 13 = [253].
Proof. reflexivity. Qed.

Example encode_35_in_second_digit : encode (7 + 35 * 250) = [7; 254].
Proof. reflexivity. Qed.

Example encode_largest : encode 15624999 = [249; 249; 249].
Proof. reflexivity. Qed.

(** ** Chunk interpretation *)

Lemma byte_reconstructor_single (b : Z) :
  b <> 252 -> byte_reconstructor [b] = translate_byte b.
Proof.
  intros Hb. rewrite byte_reconstructor_horner. cbn [before_252].
  destruct (b =? 252) eqn:E; [apply Z.eqb_eq in E; contradiction|].
  cbn [map horner]. lia.
Qed.

Lemma run_length_plain (N : Z) :
  1 <= N <= 251 -> byte_reconstructor [N] = N.
Proof.
  intros HN. rewrite byte_reconstructor_single by lia.
  unfold translate_byte.
  destruct (N =? 253) eqn:E3; [apply Z.eqb_eq in E3; lia|].
  destruct (N =? 254) eqn:E4; [apply Z.eqb_eq in E4; lia|].
  reflexivity.
Qed.

(** The loop only appends: what it does from [a ++ b] is what it does from
    [b], behind [a]. *)
Lemma zero_run_loop_app (rest a b : list Z) :
  zero_run_loop rest (a ++ b)
  = (a ++ fst (zero_run_loop rest b), snd (zero_run_loop rest b)).
Proof.
  remember (length rest) as n eqn:Hn.
  assert (Hle : (length rest <= n)%nat) by lia. clear Hn.
  revert rest a b Hle.
  induction n as [|n IH]; intros rest a b Hle.
  - destruct rest; [reflexivity | simpl in Hle; lia].
  - destruct rest as [|byte after]; [reflexivity|].
    cbn [zero_run_loop].
    destruct (byte =? 251).
    + destruct after as [|count rest']; [reflexivity|].
      rewrite <- app_assoc. apply IH. simpl in Hle. lia.
    + destruct (byte =? 252); [reflexivity|].
      cbn [fst snd]. now rewrite app_assoc.
Qed.

Lemma interpret_chunk_app (bytechunk a b : list Z) :
  interpret_chunk bytechunk (a ++ b)
  = (a ++ fst (interpret_chunk bytechunk b), snd (interpret_chunk bytechunk b)).
Proof.
  unfold interpret_chunk. destruct bytechunk as [|first more]; [reflexivity|].
  destruct (first =? 251).
  - apply zero_run_loop_app.
  - cbn [fst snd]. now rewrite app_assoc.
Qed.

Lemma interpret_chunk_entries (bytechunk ydata : list Z) :
  interpret_chunk bytechunk ydata
  = (ydata ++ chunk_entries bytechunk, snd (interpret_chunk bytechunk [])).
Proof.
  unfold chunk_entries.
  rewrite <- (app_nil_r ydata) at 1. apply interpret_chunk_app.
Qed.

Lemma bytechunk_interpreter_app (cs1 cs2 : list (list Z)) (ydata : list Z) :
  bytechunk_interpreter (cs1 ++ cs2) ydata
  = match bytechunk_interpreter cs1 ydata with
    | (ydata', None) => bytechunk_interpreter cs2 ydata'
    | (ydata', Some e) => (ydata', Some e)
    end.
Proof.
  revert ydata. induction cs1 as [|c cs1 IH]; intros ydata; [reflexivity|].
  cbn [app bytechunk_interpreter].
  destruct (interpret_chunk c ydata) as [y [e|]]; [reflexivity | apply IH].
Qed.

(** C7. A chunk that begins with the pair (251, N), N from 1 to 251, gets
    exactly N zeros appended for that pair: the scan goes on behind the
    pair from [ydata] extended by N zeros, at the head of the chunk as at a
    later pair; with nothing behind the pair, the N zeros are all that is
    appended. *)
Theorem zero_run_pair_appends_N_zeros (N : Z) (rest ydata : list Z) :
  1 <= N <= 251 ->
  interpret_chunk (251 :: N :: rest) ydata
  = zero_run_loop rest (ydata ++ repeat 0 (Z.to_nat N))
  /\ zero_run_loop (251 :: N :: rest) ydata
     = zero_run_loop rest (ydata ++ repeat 0 (Z.to_nat N))
  /\ bytechunk_interpreter [[251; N]] ydata
     = (ydata ++ repeat 0 (Z.to_nat N), None)
  /\ length (repeat 0 (Z.to_nat N)) = Z.to_nat N.
Proof.
  intros HN.
  assert (Hloop : forall r y, zero_run_loop (251 :: N :: r) y
                   = zero_run_loop r (y ++ repeat 0 (Z.to_nat N))).
  { intros r y. cbn [zero_run_loop]. change (251 =? 251) with true.
    cbv iota. unfold Py.zeros. now rewrite run_length_plain. }
  split; [|split; [|split]].
  - unfold interpret_chunk. change (251 =? 251) with true. apply Hloop.
  - apply Hloop.
  - cbn [bytechunk_interpreter]. unfold interpret_chunk.
    change (251 =? 251) with true. cbv iota. now rewrite Hloop.
  - apply repeat_length.
Qed.

Lemma zero_run_pair_appends_N_zeros_witness :
  1 <= 5 <= 251
  /\ interpret_chunk [251; 5; 10] [9] = ([9; 0; 0; 0; 0; 0; 10], None)
  /\ bytechunk_interpreter [[251; 5]] [9] = ([9; 0; 0; 0; 0; 0], None).
Proof.
  split; [lia|].
  destruct (zero_run_pair_appends_N_zeros 5 [10] [9]) as (H1 & _ & H3 & _);
    [lia|].
  split; [exact H1 | exact H3].
Defined.

(** C9. The run-length byte goes through the substitutions of
    [byte_reconstructor]: behind (251, 253) the chunk has 13 zeros
    appended, behind (251, 254) it has 35. *)
Theorem zero_run_length_is_substituted (rest ydata : list Z) :
  interpret_chunk (251 :: 253 :: rest) ydata
  = zero_run_loop rest (ydata ++ repeat 0 13)
  /\ interpret_chunk (251 :: 254 :: rest) ydata
     = zero_run_loop rest (ydata ++ repeat 0 35)
  /\ bytechunk_interpreter [[251; 253]] ydata = (ydata ++ repeat 0 13, None)
  /\ bytechunk_interpreter [[251; 254]] ydata = (ydata ++ repeat 0 35, None).
Proof.
  repeat split.
Qed.

(** C4 as the code has it. The bytes [251, 251, 3, 255] split into the
    chunk [251, 251, 3] and an empty chunk; the chunk appends 251 zeros and
    then the value 3 (the byte behind a completed pair that is neither 251
    nor 252 starts a value): 252 entries, the last of them 3. *)
Theorem decode_251_251_3 (ydata : list Z) :
  Py.split 255 [251; 251; 3; 255] = [[251; 251; 3]; []]
  /\ bytechunk_interpreter (Py.split 255 [251; 251; 3; 255]) ydata
     = (ydata ++ repeat 0 251 ++ [3], None)
  /\ length (repeat 0 251 ++ [3]) = 252%nat.
Proof.
  split; [reflexivity|]. split; [|reflexivity].
  change (Py.split 255 [251; 251; 3; 255]) with [[251; 251; 3]; []].
  cbn [bytechunk_interpreter].
  rewrite interpret_chunk_entries.
  change (snd (interpret_chunk [251; 251; 3] [])) with (@None exn).
  cbv iota. cbn [interpret_chunk].
  f_equal.
Qed.

(** C4 as stated fails: from an empty spectrum the bytes do not decode to
    254 zeros, neither chunk by chunk nor through [interpreter]. *)
Lemma decode_251_251_3_is_not_254_zeros :
  fst (bytechunk_interpreter (Py.split 255 [251; 251; 3; 255]) [])
  <> repeat 0 254
  /\ ydata (fst (interpreter started_state [251; 251; 3; 255]))
     = repeat 0 251 ++ [3].
Proof.
  split; [|vm_compute; reflexivity].
  intros H. vm_compute in H. discriminate H.
Qed.

(** The run of 254 zeros is written with a third 251. *)
Example decode_251_251_251_3 :
  bytechunk_interpreter (Py.split 255 [251; 251; 251; 3; 255]) []
  = (repeat 0 254, None).
Proof. vm_compute. reflexivity. Qed.

(** C3. The zero-run loop reads [decchunk[chunkindex+1]] without looking
    at the length: a chunk that is the single byte 251, or that ends right
    behind a 251 in pair position, raises [IndexError], which leaves
    [bytechunk_interpreter] and [interpreter]; the chunks behind it in the
    list are not interpreted. *)
Theorem zero_run_marker_without_count_raises (ydata : list Z) :
  bytechunk_interpreter [[251]] ydata = (ydata, Some IndexError)
  /\ bytechunk_interpreter [[251; 2; 251]; [7]] ydata
     = (ydata ++ [0; 0], Some IndexError)
  /\ snd (interpreter started_state [251; 255]) = Raised IndexError
  /\ snd (interpreter
            (fst (interpreter started_state [7; 255; 251]))
            Marker.end_binary)
     = Raised IndexError.
Proof.
  repeat split.
Qed.

(** Apart from that access, chunk interpretation raises nothing. *)
Lemma bytechunk_interpreter_raises_only_IndexError
  (bytechunks : list (list Z)) (ydata : list Z) (e : exn) :
  snd (bytechunk_interpreter bytechunks ydata) = Some e -> e = IndexError.
Proof.
  assert (Hloop : forall n rest y,
             (length rest <= n)%nat ->
             snd (zero_run_loop rest y) = Some e -> e = IndexError).
  { induction n as [|n IH]; intros rest y Hle.
    - destruct rest; [discriminate | simpl in Hle; lia].
    - destruct rest as [|byte after]; [discriminate|].
      cbn [zero_run_loop]. destruct (byte =? 251).
      + destruct after as [|count rest'].
        * cbn [snd]. congruence.
        * apply IH. simpl in Hle. lia.
      + destruct (byte =? 252); discriminate. }
  revert ydata. induction bytechunks as [|c cs IH]; intros ydata.
  - discriminate.
  - cbn [bytechunk_interpreter].
    destruct (interpret_chunk c ydata) as [y [e'|]] eqn:Hc; [|apply IH].
    cbn [snd]. intros He. injection He as ->.
    unfold interpret_chunk in Hc. destruct c as [|first more].
    + discriminate.
    + destruct (first =? 251); [|discriminate].
      apply (Hloop (length (first :: more)) (first :: more) ydata);
        [lia | now rewrite Hc].
Qed.

(** ** No stop at 1024 *)

Lemma bytechunk_interpreter_entries
  (bytechunks : list (list Z)) (ydata ydata' : list Z) :
  bytechunk_interpreter bytechunks ydata = (ydata', None) ->
  ydata' = ydata ++ concat (map chunk_entries bytechunks).
Proof.
  revert ydata. induction bytechunks as [|c cs IH]; intros ydata.
  - cbn. intros H. injection H as <-. now rewrite app_nil_r.
  - cbn [bytechunk_interpreter map concat].
    rewrite interpret_chunk_entries.
    destruct (snd (interpret_chunk c [])); [discriminate|].
    intros H. apply IH in H. now rewrite H, app_assoc.
Qed.

(** C2 as the code has it. [bytechunk_interpreter] never looks at the
    length of DecodedSpectrum: when no chunk raises, every chunk of the
    list is consumed and DecodedSpectrum after the call is DecodedSpectrum
    before it followed by the entries of all the chunks in order, so its
    length grows by all of them, past 1024 if they are that many. *)
Theorem bytechunk_interpreter_consumes_every_chunk
  (bytechunks : list (list Z)) (ydata ydata' : list Z) :
  bytechunk_interpreter bytechunks ydata = (ydata', None) ->
  ydata' = ydata ++ concat (map chunk_entries bytechunks)
  /\ length ydata'
     = (length ydata + length (concat (map chunk_entries bytechunks)))%nat.
Proof.
  intros H. apply bytechunk_interpreter_entries in H. subst ydata'.
  split; [reflexivity | apply length_app].
Qed.

Lemma bytechunk_interpreter_consumes_every_chunk_witness :
  bytechunk_interpreter [[7]; [8]] (repeat 0 1023)
  = (repeat 0 1023 ++ [7; 8], None)
  /\ repeat 0 1023 ++ [7; 8]
     = repeat 0 1023 ++ concat (map chunk_entries [[7]; [8]])
  /\ length (repeat 0 1023 ++ [7; 8])
     = Nat.add (length (repeat 0 1023))
               (length (concat (map chunk_entries [[7]; [8]]))).
Proof.
  assert (H : bytechunk_interpreter [[7]; [8]] (repeat 0 1023)
              = (repeat 0 1023 ++ [7; 8], None))
    by (vm_compute; reflexivity).
  split; [exact H|].
  exact (bytechunk_interpreter_consumes_every_chunk _ _ _ H).
Defined.

(** C2 as stated fails: one call that starts from 1023 entries and is
    given two value chunks appends both, the second one behind entry 1024,
    and leaves 1025 entries; so does a binary block that carries 1025
    zeros. *)
Lemma decoder_appends_past_1024 :
  length (repeat 0 1023) = 1023%nat
  /\ fst (bytechunk_interpreter [[7]; [8]] (repeat 0 1023))
     = repeat 0 1023 ++ [7; 8]
  /\ length (fst (bytechunk_interpreter [[7]; [8]] (repeat 0 1023)))
     = 1025%nat
  /\ length (ydata (fst (interpreter started_state
                           [251; 251; 251; 251; 251; 251; 251; 251;
                            251; 21; 255])))
     = 1025%nat.
Proof.
  repeat split; vm_compute; reflexivity.
Qed.

(** ** Dispatch of [interpreter] on the text markers *)

Lemma startswith_prefix (b p : list Z) :
  Py.startswith b p = true -> exists r, b = p ++ r.
Proof.
  revert b. induction p as [|y p IH]; intros b H.
  - now exists b.
  - destruct b as [|x b]; [discriminate|].
    cbn [Py.startswith] in H. apply andb_true_iff in H as [Hx Hp].
    apply Z.eqb_eq in Hx. subst y.
    destruct (IH b Hp) as [r ->]. now exists r.
Qed.

Lemma interpreter_end_binary (st : state) (rawbytes : list Z) :
  Py.startswith (Py.strip 10 rawbytes) Marker.end_binary = true ->
  interpreter st rawbytes = end_binary_branch st (Py.strip 10 rawbytes).
Proof.
  intros H. unfold interpreter.
  destruct (startswith_prefix _ _ H) as [r Hr]. rewrite Hr.
  dispatch_on_marker. reflexivity.
Qed.

Lemma interpreter_bitsum (st : state) (rawbytes : list Z) :
  Py.startswith (Py.strip 10 rawbytes) Marker.bitsum = true ->
  interpreter st rawbytes = bitsum_branch st (Py.strip 10 rawbytes).
Proof.
  intros H. unfold interpreter.
  destruct (startswith_prefix _ _ H) as [r Hr]. rewrite Hr.
  dispatch_on_marker. reflexivity.
Qed.

Lemma interpreter_binary (st : state) (rawbytes : list Z) :
  binaryblock st = true ->
  is_binary_data rawbytes = true ->
  interpreter st rawbytes = binary_branch st rawbytes (Py.strip 10 rawbytes).
Proof.
  intros Hb H. unfold is_binary_data in H. unfold interpreter.
  repeat (apply andb_true_iff in H as [H ?]).
  repeat match goal with
         | Hn : negb ?c = true |- _ =>
             apply negb_true_iff in Hn; rewrite Hn
         end.
  now rewrite Hb.
Qed.

Lemma single_chunk (bytechunk ydata : list Z) :
  bytechunk_interpreter [bytechunk] ydata = interpret_chunk bytechunk ydata.
Proof.
  cbn [bytechunk_interpreter].
  now destruct (interpret_chunk bytechunk ydata) as [y [e|]].
Qed.

(** ** The end of the binary block *)

Lemma end_binary_interprets_held_fragment_aux
  (st : state) (rawbytes interrupted : list Z) :
  Py.startswith (Py.strip 10 rawbytes) Marker.end_binary = true ->
  interrupted_bytechunk st = Some interrupted ->
  ydata (fst (interpreter st rawbytes))
  = fst (bytechunk_interpreter [interrupted] (ydata st))
  /\ snd (interpreter st rawbytes)
     = match snd (bytechunk_interpreter [interrupted] (ydata st)) with
       | Some e => Raised e
       | None =>
           if Nat.eqb (length (ydata (fst (interpreter st rawbytes)))) 1024
           then Finished
           else Raised (ScintomaticError
                          (length (ydata (fst (interpreter st rawbytes)))))
       end.
Proof.
  intros Hend Hheld.
  rewrite (interpreter_end_binary _ _ Hend).
  unfold end_binary_branch. rewrite Hheld.
  destruct (bytechunk_interpreter [interrupted] (ydata st))
    as [ydata' [e|]]; cbn [fst snd]; [now split|].
  destruct (Nat.eqb (length ydata') 1024) eqn:Hlen;
    cbn [negb fst snd ydata]; rewrite Hlen; now split.
Qed.

(** C10. On [=>End(binary)] the decoder interprets the held fragment as
    one last chunk, then checks the length: DecodedSpectrum gets the
    entries of the fragment appended (nothing for an empty fragment, its
    reconstructed value for a fragment that does not start with 251), the
    block is closed, and the call ends normally exactly when the spectrum
    then has 1024 entries; otherwise it raises, with the count. *)
Theorem end_binary_interprets_held_fragment
  (st : state) (rawbytes interrupted : list Z) :
  Py.startswith (Py.strip 10 rawbytes) Marker.end_binary = true ->
  interrupted_bytechunk st = Some interrupted ->
  let st' := fst (interpreter st rawbytes) in
  ydata st' = fst (bytechunk_interpreter [interrupted] (ydata st))
  /\ ydata st' = ydata st ++ chunk_entries interrupted
  /\ (interrupted = [] -> ydata st' = ydata st)
  /\ (forall first more,
         interrupted = first :: more -> first <> 251 ->
         ydata st' = ydata st ++ [byte_reconstructor interrupted])
  /\ binaryblock st' = false
  /\ snd (interpreter st rawbytes)
     = match snd (bytechunk_interpreter [interrupted] (ydata st)) with
       | Some e => Raised e
       | None =>
           if Nat.eqb (length (ydata st')) 1024 then Finished
           else Raised (ScintomaticError (length (ydata st')))
       end.
Proof.
  intros Hend Hheld st'. subst st'.
  rewrite (interpreter_end_binary _ _ Hend).
  unfold end_binary_branch. rewrite Hheld.
  assert (Hy : fst (bytechunk_interpreter [interrupted] (ydata st))
               = ydata st ++ chunk_entries interrupted).
  { rewrite single_chunk, interpret_chunk_entries. reflexivity. }
  destruct (bytechunk_interpreter [interrupted] (ydata st))
    as [ydata' [e|]] eqn:Hrun; cbn [fst snd] in *.
  - subst ydata'. repeat split.
    + intros ->. now rewrite app_nil_r.
    + intros first more -> Hfirst. unfold chunk_entries, interpret_chunk.
      apply Z.eqb_neq in Hfirst. now rewrite Hfirst.
  - destruct (Nat.eqb (length ydata') 1024) eqn:Hlen; cbn [negb fst snd ydata];
      rewrite ?Hlen; subst ydata'; repeat split.
    + intros ->. now rewrite app_nil_r.
    + intros first more -> Hfirst. unfold chunk_entries, interpret_chunk.
      apply Z.eqb_neq in Hfirst. now rewrite Hfirst.
    + intros ->. now rewrite app_nil_r.
    + intros first more -> Hfirst. unfold chunk_entries, interpret_chunk.
      apply Z.eqb_neq in Hfirst. now rewrite Hfirst.
Qed.

Lemma end_binary_interprets_held_fragment_witness :
  let st := fst (interpreter started_state [7; 255; 44; 1]) in
  Py.startswith (Py.strip 10 (Marker.end_binary ++ [10])) Marker.end_binary
  = true
  /\ interrupted_bytechunk st = Some [44; 1]
  /\ ydata st = [7]
  /\ ydata (fst (interpreter st (Marker.end_binary ++ [10]))) = [7; 294]
  /\ snd (interpreter st (Marker.end_binary ++ [10]))
     = Raised (ScintomaticError 2).
Proof.
  intros st.
  assert (H1 : Py.startswith (Py.strip 10 (Marker.end_binary ++ [10]))
                 Marker.end_binary = true) by reflexivity.
  assert (H2 : interrupted_bytechunk st = Some [44; 1]) by reflexivity.
  destruct (end_binary_interprets_held_fragment st _ _ H1 H2)
    as (_ & Hy & _ & _ & _ & Hout).
  split; [exact H1|]. split; [exact H2|]. split; [reflexivity|].
  split; [exact Hy | rewrite Hout; reflexivity].
Defined.

(** C5 as the code has it. At [=>End(binary)], once the held fragment is
    interpreted (without an exception there), [ScintomaticError] is raised
    exactly when DecodedSpectrum does not have 1024 entries, fewer or
    more, and the call ends normally exactly when it has 1024.  A
    [Bitsum:] line with a readable number never raises and never touches
    the spectrum: the comparison with the local bit count only chooses the
    text of the progress ring. *)
Theorem end_of_stream_error_iff_length_not_1024
  (st st_b : state) (end_line bitsum_line interrupted : list Z)
  (theirbitsum : Z) :
  Py.startswith (Py.strip 10 end_line) Marker.end_binary = true ->
  interrupted_bytechunk st = Some interrupted ->
  snd (interpret_chunk interrupted (ydata st)) = None ->
  Py.startswith (Py.strip 10 bitsum_line) Marker.bitsum = true ->
  Py.int (skipn 7 (Py.strip 10 bitsum_line)) = Some theirbitsum ->
  let st' := fst (interpreter st end_line) in
  let out := snd (interpreter st end_line) in
  (out = Raised (ScintomaticError (length (ydata st')))
   <-> length (ydata st') <> 1024%nat)
  /\ (out = Finished <-> length (ydata st') = 1024%nat)
  /\ snd (interpreter st_b bitsum_line) = Finished
  /\ ydata (fst (interpreter st_b bitsum_line)) = ydata st_b
  /\ progress_text (fst (interpreter st_b bitsum_line))
     = if theirbitsum =? bitsum st_b then RingCheck else RingApprox.
Proof.
  intros Hend Hheld Hok Hbit Hint st' out.
  destruct (end_binary_interprets_held_fragment_aux st end_line interrupted
              Hend Hheld) as [Hy Hout].
  fold st' in Hy, Hout. fold out in Hout.
  rewrite single_chunk, Hok in Hout.
  split; [|split].
  - rewrite Hout. destruct (Nat.eqb (length (ydata st')) 1024) eqn:E.
    + apply Nat.eqb_eq in E. split; [discriminate | intros H; now elim H].
    + apply Nat.eqb_neq in E. split; [intros _; exact E | reflexivity].
  - rewrite Hout. destruct (Nat.eqb (length (ydata st')) 1024) eqn:E.
    + apply Nat.eqb_eq in E. split; [intros _; exact E | reflexivity].
    + apply Nat.eqb_neq in E. split; [discriminate | intros H; now elim E].
  - rewrite (interpreter_bitsum _ _ Hbit). unfold bitsum_branch.
    rewrite Hint. repeat split.
Qed.

Lemma end_of_stream_error_iff_length_not_1024_witness :
  let st :=
    fst (interpreter started_state
           [251; 251; 251; 251; 251; 251; 251; 251; 251; 20; 255]) in
  let end_line := Marker.end_binary ++ [10; 13] in
  let bitsum_line := Marker.bitsum ++ [49; 50; 51; 10; 13] in
  Py.startswith (Py.strip 10 end_line) Marker.end_binary = true
  /\ interrupted_bytechunk st = Some []
  /\ snd (interpret_chunk [] (ydata st)) = None
  /\ Py.startswith (Py.strip 10 bitsum_line) Marker.bitsum = true
  /\ Py.int (skipn 7 (Py.strip 10 bitsum_line)) = Some 123
  /\ length (ydata st) = 1024%nat
  /\ bitsum st = 73
  /\ snd (interpreter st end_line) = Finished
  /\ snd (interpreter st bitsum_line) = Finished
  /\ progress_text (fst (interpreter st bitsum_line)) = RingApprox.
Proof.
  intros st end_line bitsum_line.
  assert (Hend : Py.startswith (Py.strip 10 end_line) Marker.end_binary
                 = true) by reflexivity.
  assert (Hheld : interrupted_bytechunk st = Some []) by reflexivity.
  assert (Hok : snd (interpret_chunk [] (ydata st)) = None) by reflexivity.
  assert (Hbit : Py.startswith (Py.strip 10 bitsum_line) Marker.bitsum
                 = true) by reflexivity.
  assert (Hint : Py.int (skipn 7 (Py.strip 10 bitsum_line)) = Some 123)
    by reflexivity.
  assert (Hlen : length (ydata st) = 1024%nat) by (vm_compute; reflexivity).
  assert (Hlen' : length (ydata (fst (interpreter st end_line))) = 1024%nat)
    by (vm_compute; reflexivity).
  destruct (end_of_stream_error_iff_length_not_1024
              st st end_line bitsum_line [] 123 Hend Hheld Hok Hbit Hint)
    as (_ & Hfin & Hb & _ & Hring).
  split; [exact Hend|]. split; [exact Hheld|]. split; [exact Hok|].
  split; [exact Hbit|]. split; [exact Hint|]. split; [exact Hlen|].
  split; [vm_compute; reflexivity|].
  split; [apply Hfin; exact Hlen'|].
  split; [exact Hb | exact Hring].
Defined.

(** C5 as stated fails: a binary block that carried 1025 entries ends with
    the error although the spectrum does not have fewer than 1024. *)
Lemma end_of_stream_error_with_1025_entries :
  let st :=
    fst (interpreter started_state
           [251; 251; 251; 251; 251; 251; 251; 251; 251; 21; 255]) in
  length (ydata st) = 1025%nat
  /\ ~ (length (ydata st) < 1024)%nat
  /\ snd (interpreter st Marker.end_binary)
     = Raised (ScintomaticError 1025).
Proof.
  intros st.
  assert (Hlen : length (ydata st) = 1025%nat) by (vm_compute; reflexivity).
  split; [exact Hlen|]. split; [rewrite Hlen; lia|].
  vm_compute. reflexivity.
Qed.

(** ** Splitting a buffer in two *)

Lemma bytes_eqb_eq (a b : list Z) : Py.bytes_eqb a b = true <-> a = b.
Proof.
  revert b. induction a as [|x a IH]; intros [|y b]; cbn [Py.bytes_eqb];
    try (split; [discriminate | discriminate]); [now split|].
  rewrite andb_true_iff, Z.eqb_eq, IH.
  split; [intros [-> ->]; reflexivity | intros H; injection H; auto].
Qed.

Lemma bytes_eqb_nil (a : list Z) : Py.bytes_eqb a [] = true <-> a = [].
Proof. apply bytes_eqb_eq. Qed.

Lemma split_nonempty (sep : Z) (b : list Z) :
  exists c cs, Py.split sep b = c :: cs.
Proof.
  destruct b as [|x b]; cbn [Py.split]; [now exists [], []|].
  destruct (x =? sep); [now eexists _, _|].
  destruct (Py.split sep b); now eexists _, _.
Qed.

(** The chunks of [s1 ++ s2]: those of [s1], its last chunk continued by
    the first chunk of [s2], then the rest of the chunks of [s2]. *)
Lemma split_app (sep : Z) (s1 : list Z) :
  exists init L,
    Py.split sep s1 = init ++ [L]
    /\ forall s2 H T,
        Py.split sep s2 = H :: T ->
        Py.split sep (s1 ++ s2) = init ++ (L ++ H) :: T.
Proof.
  induction s1 as [|x s1 (init & L & Hs1 & Happ)].
  - exists [], []. split; [reflexivity|]. intros s2 H T HT. exact HT.
  - cbn [Py.split app]. destruct (x =? sep).
    + exists ([] :: init), L. split; [now rewrite Hs1|].
      intros s2 H T HT. now rewrite (Happ s2 H T HT).
    + rewrite Hs1. destruct init as [|c init].
      * exists [], (x :: L). split; [reflexivity|].
        intros s2 H T HT. now rewrite (Happ s2 H T HT).
      * exists ((x :: c) :: init), L. split; [reflexivity|].
        intros s2 H T HT. now rewrite (Happ s2 H T HT).
Qed.

(** The last chunk of a buffer is empty exactly when its last byte is the
    separator. *)
Lemma split_last_byte (s : list Z) (z : Z) (init : list (list Z))
  (L : list Z) :
  Py.split 255 (s ++ [z]) = init ++ [L] ->
  if z =? 255 then L = [] /\ init <> [] else L <> [].
Proof.
  intros Hs.
  destruct (split_app 255 s) as (init0 & L0 & _ & Happ).
  destruct (z =? 255) eqn:Ez.
  - rewrite (Happ [z] [] [[]]) in Hs by (cbn; now rewrite Ez).
    change (init0 ++ (L0 ++ []) :: [[]])
      with (init0 ++ [L0 ++ []] ++ [[]]) in Hs.
    rewrite app_assoc in Hs. apply app_inj_tail in Hs as [<- <-].
    split; [reflexivity | now destruct init0].
  - rewrite (Happ [z] [z] []) in Hs by (cbn; now rewrite Ez).
    apply app_inj_tail in Hs as [_ <-]. now destruct L0.
Qed.

Lemma last_slice_snoc (s : list Z) (z : Z) : Py.last_slice (s ++ [z]) = [z].
Proof. unfold Py.last_slice. now rewrite rev_app_distr. Qed.

Lemma last_slice_app (s1 s2 : list Z) :
  s2 <> [] -> Py.last_slice (s1 ++ s2) = Py.last_slice s2.
Proof.
  intros Hs2. destruct (exists_last Hs2) as (s & z & ->).
  now rewrite app_assoc, !last_slice_snoc.
Qed.

Lemma first_slice_app (s1 s2 : list Z) :
  s1 <> [] -> Py.first_slice (s1 ++ s2) = Py.first_slice s1.
Proof. now destruct s1. Qed.

Lemma set_last_app {A : Type} (P Q : list A) (x : A) :
  Q <> [] -> Py.set_last (P ++ Q) x = P ++ Py.set_last Q x.
Proof.
  intros HQ. induction P as [|p P IH]; [reflexivity|].
  cbn [app Py.set_last]. rewrite IH.
  destruct (P ++ Q) eqn:E; [|reflexivity].
  apply app_eq_nil in E as [_ ->]. contradiction.
Qed.

Lemma last_item_app {A : Type} (P Q : list A) (d : A) :
  Q <> [] -> Py.last_item (P ++ Q) d = Py.last_item Q d.
Proof.
  intros HQ. unfold Py.last_item.
  destruct (exists_last HQ) as (Q' & q & ->).
  now rewrite app_assoc, !last_last.
Qed.

Lemma hold_last_app (rawbytes : list Z) (P Q : list (list Z)) :
  Q <> [] ->
  hold_last rawbytes (P ++ Q)
  = (P ++ fst (hold_last rawbytes Q), snd (hold_last rawbytes Q)).
Proof.
  intros HQ. unfold hold_last.
  destruct (negb _); cbn [fst snd]; [|reflexivity].
  now rewrite set_last_app, last_item_app.
Qed.

Lemma merge_interrupted_cons (f r c : list Z) (cs : list (list Z)) :
  merge_interrupted f r (c :: cs) = merge_interrupted f r [c] ++ cs.
Proof.
  unfold merge_interrupted.
  destruct (negb _); [|reflexivity].
  destruct (Py.bytes_eqb _ [255]); [reflexivity|].
  destruct (Py.bytes_eqb _ [252]); reflexivity.
Qed.

(** On a single chunk: the held chunk goes in front of it, as a chunk of
    its own or as its beginning, or there is none. *)
Lemma merge_interrupted_single (f r : list Z) :
  exists P pre,
    forall c, merge_interrupted f r [c] = P ++ [pre ++ c].
Proof.
  unfold merge_interrupted.
  destruct (negb _); [|now exists [], []].
  destruct (Py.bytes_eqb _ [255]); [now exists [f], []|].
  destruct (Py.bytes_eqb _ [252]); [now exists [f], []|].
  now exists [], f.
Qed.

Lemma merge_interrupted_snoc (f r : list Z) (init : list (list Z))
  (L : list Z) :
  L <> [] ->
  exists P L',
    L' <> []
    /\ merge_interrupted f r (init ++ [L]) = P ++ [L']
    /\ forall X T,
        merge_interrupted f r (init ++ (L ++ X) :: T) = P ++ (L' ++ X) :: T.
Proof.
  intros HL. destruct init as [|i0 init].
  - destruct (merge_interrupted_single f r) as (P & pre & Hm).
    exists P, (pre ++ L). split; [|split].
    + intros E. apply app_eq_nil in E as [_ E]. contradiction.
    + apply Hm.
    + intros X T. cbn [app]. rewrite merge_interrupted_cons, Hm.
      now rewrite <- !app_assoc.
  - exists (merge_interrupted f r [i0] ++ init), L. split; [exact HL|]. split.
    + cbn [app]. now rewrite merge_interrupted_cons, app_assoc.
    + intros X T. cbn [app]. now rewrite merge_interrupted_cons, app_assoc.
Qed.


Lemma bytechunk_interpreter_skips_empty
  (bytechunks : list (list Z)) (ydata : list Z) :
  bytechunk_interpreter bytechunks ydata
  = bytechunk_interpreter (filter nonempty_chunk bytechunks) ydata.
Proof.
  revert ydata. induction bytechunks as [|c cs IH]; intros ydata;
    [reflexivity|].
  destruct c as [|x c].
  - cbn. apply IH.
  - cbn [filter nonempty_chunk Py.bytes_eqb negb bytechunk_interpreter].
    destruct (interpret_chunk (x :: c) ydata) as [y [e|]];
      [reflexivity | apply IH].
Qed.

(** The reassembly of two consecutive buffers against that of their
    concatenation, when the cut does not touch a 252: the same chunk is
    held at the end, and the same chunks are interpreted, empty ones
    apart. *)
Lemma reassemble_split (f0 s s2' : list Z) (z b : Z) :
  z <> 252 -> b <> 252 ->
  forall C1 f1 C2 f2 C f,
    reassemble f0 (s ++ [z]) = (C1, f1) ->
    reassemble f1 (b :: s2') = (C2, f2) ->
    reassemble f0 ((s ++ [z]) ++ b :: s2') = (C, f) ->
    f2 = f
    /\ filter nonempty_chunk (C1 ++ C2) = filter nonempty_chunk C.
Proof.
  intros Hz Hb C1 f1 C2 f2 C f.
  unfold reassemble.
  destruct (split_app 255 (s ++ [z])) as (init & L & Hs1 & Happ).
  destruct (split_nonempty 255 (b :: s2')) as (H & T & Hs2).
  rewrite (Happ _ _ _ Hs2), Hs1, Hs2.
  assert (Hs1ne : s ++ [z] <> []) by now destruct s.
  assert (Hm : forall cs, merge_interrupted f0 ((s ++ [z]) ++ b :: s2') cs
                          = merge_interrupted f0 (s ++ [z]) cs).
  { intros cs. unfold merge_interrupted.
    now rewrite (first_slice_app _ _ Hs1ne). }
  assert (Hh : forall cs, hold_last ((s ++ [z]) ++ b :: s2') cs
                          = hold_last (b :: s2') cs).
  { intros cs. unfold hold_last. now rewrite last_slice_app. }
  rewrite Hm, Hh. clear Hm Hh.
  pose proof (split_last_byte s z init L Hs1) as HL.
  assert (Hz252 : (z =? 252) = false) by now apply Z.eqb_neq.
  assert (Hb252 : (b =? 252) = false) by now apply Z.eqb_neq.
  unfold hold_last at 1. rewrite last_slice_snoc.
  cbn [Py.bytes_eqb]. rewrite Hz252, !andb_true_r, orb_false_r.
  destruct (z =? 255) eqn:Ez.
  - (* the first buffer ends with the separator *)
    destruct HL as [-> Hinit].
    destruct init as [|i0 init]; [contradiction|]. clear Hinit.
    cbn [negb app]. intros E1. injection E1 as <- <-.
    unfold merge_interrupted at 1. cbn [Py.bytes_eqb negb].
    rewrite (merge_interrupted_cons f0 _ i0 (init ++ H :: T)).
    rewrite (merge_interrupted_cons f0 _ i0 (init ++ [[]])).
    rewrite app_assoc, hold_last_app by discriminate.
    intros E2 E. rewrite E2 in E. cbn [fst snd] in E. injection E as <- <-.
    split; [reflexivity | same_nonempty_chunks].
  - (* the first buffer ends inside a chunk *)
    destruct (merge_interrupted_snoc f0 (s ++ [z]) init L HL)
      as (P & L' & HL' & HP & HPX).
    rewrite HP, HPX. cbn [negb].
    rewrite set_last_app, last_item_app by discriminate.
    cbn [Py.set_last Py.last_item last].
    intros E1. injection E1 as <- <-.
    unfold merge_interrupted.
    assert (HL'b : Py.bytes_eqb L' [] = false).
    { destruct (Py.bytes_eqb L' []) eqn:E; [|reflexivity].
      apply bytes_eqb_nil in E. contradiction. }
    rewrite HL'b. cbn [negb Py.first_slice firstn Py.bytes_eqb].
    rewrite Hb252, !andb_true_r, ?andb_false_r.
    destruct (b =? 255) eqn:Eb.
    + (* the second buffer starts with the separator *)
      cbn [Py.split] in Hs2. rewrite Eb in Hs2. injection Hs2 as <- HT.
      destruct (split_nonempty 255 s2') as (t0 & T' & Ht). rewrite Ht in HT.
      subst T.
      change (L' :: [] :: t0 :: T') with ([L'; []] ++ t0 :: T').
      rewrite hold_last_app by discriminate.
      intros E2. injection E2 as <- <-.
      rewrite app_nil_r.
      change (P ++ L' :: t0 :: T') with (P ++ [L'] ++ t0 :: T').
      rewrite app_assoc, hold_last_app by discriminate.
      intros E. injection E as <- <-.
      split; [reflexivity|].
      assert (Hne : nonempty_chunk L' = true)
        by (unfold nonempty_chunk; now rewrite HL'b).
      rewrite ?filter_app. cbn [filter]. rewrite ?Hne.
      same_nonempty_chunks.
    + (* the second buffer continues the held chunk *)
      intros E2.
      change (P ++ (L' ++ H) :: T) with (P ++ ((L' ++ H) :: T)).
      rewrite hold_last_app by discriminate.
      rewrite E2. cbn [fst snd]. intros E. injection E as <- <-.
      split; [reflexivity | same_nonempty_chunks].
Qed.

Lemma sum_app (l1 l2 : list Z) : Py.sum (l1 ++ l2) = Py.sum l1 + Py.sum l2.
Proof.
  unfold Py.sum at 1. rewrite fold_left_app, sum_from.
  unfold Py.sum. reflexivity.
Qed.

Lemma binary_data_nonempty (rawbytes : list Z) :
  is_binary_data rawbytes = true -> rawbytes <> [].
Proof. intros H ->. discriminate H. Qed.

(** Where the split property does hold.  Let a byte stream be cut into
    two buffers that both reach the binary branch, as does the stream
    itself (each holds a byte other than newline and starts with none of
    the text markers), the cut not touching an end-of-stream byte (the
    first buffer does not end with 252, the second does not start with
    it), and let the first call end normally.  Then the two calls leave the
    same DecodedSpectrum and the same held fragment as one call on the
    whole stream, and end the same way; when they end normally the bit
    count is the same too. *)
Theorem interpreter_split_buffers (st : state) (s1 s2 : list Z) :
  binaryblock st = true ->
  is_binary_data s1 = true ->
  is_binary_data s2 = true ->
  is_binary_data (s1 ++ s2) = true ->
  Py.last_slice s1 <> [252] ->
  Py.first_slice s2 <> [252] ->
  snd (interpreter st s1) = Finished ->
  let split_run := interpreter (fst (interpreter st s1)) s2 in
  let whole_run := interpreter st (s1 ++ s2) in
  ydata (fst split_run) = ydata (fst whole_run)
  /\ interrupted_bytechunk (fst split_run)
     = interrupted_bytechunk (fst whole_run)
  /\ snd split_run = snd whole_run
  /\ (snd whole_run = Finished ->
      bitsum (fst split_run) = bitsum (fst whole_run)).
Proof.
  intros Hbb H1 H2 H12 Hlast Hfirst Hfin split_run whole_run.
  subst split_run whole_run.
  destruct (exists_last (binary_data_nonempty _ H1)) as (s & z & ->).
  destruct s2 as [|b s2']; [discriminate H2|].
  rewrite last_slice_snoc in Hlast.
  assert (Hz : z <> 252) by (intros ->; now apply Hlast).
  assert (Hb : b <> 252) by (intros ->; now apply Hfirst).
  rewrite (interpreter_binary st _ Hbb H12).
  rewrite (interpreter_binary st _ Hbb H1) in *.
  unfold binary_branch in *.
  destruct (interrupted_bytechunk st) as [f0|]; [|discriminate Hfin].
  destruct (reassemble f0 (s ++ [z])) as [C1 f1] eqn:R1.
  destruct (bytechunk_interpreter C1 (ydata st)) as [y1 [e|]] eqn:B1;
    [discriminate Hfin|].
  cbn [fst].
  rewrite interpreter_binary by (try exact H2; exact Hbb).
  unfold binary_branch. cbn [interrupted_bytechunk ydata bitsum].
  destruct (reassemble f1 (b :: s2')) as [C2 f2] eqn:R2.
  destruct (reassemble f0 ((s ++ [z]) ++ b :: s2')) as [C f] eqn:R.
  destruct (reassemble_split f0 s s2' z b Hz Hb _ _ _ _ _ _ R1 R2 R)
    as [<- Hchunks].
  rewrite (bytechunk_interpreter_skips_empty C), <- Hchunks.
  rewrite <- bytechunk_interpreter_skips_empty.
  rewrite bytechunk_interpreter_app, B1.
  destruct (bytechunk_interpreter C2 y1) as [y2 [e|]];
    cbn [fst snd ydata interrupted_bytechunk bitsum].
  - repeat split. discriminate.
  - repeat split. intros _.
    rewrite (map_app _ (s ++ [z]) (b :: s2')), sum_app.
    symmetry. apply Z.add_assoc.
Qed.

Lemma interpreter_split_buffers_witness :
  let s1 := [251; 3; 44] in
  let s2 := [1; 255; 9] in
  binaryblock started_state = true
  /\ is_binary_data s1 = true
  /\ is_binary_data s2 = true
  /\ is_binary_data (s1 ++ s2) = true
  /\ Py.last_slice s1 <> [252]
  /\ Py.first_slice s2 <> [252]
  /\ snd (interpreter started_state s1) = Finished
  /\ ydata (fst (interpreter (fst (interpreter started_state s1)) s2))
     = [0; 0; 0; 294]
  /\ ydata (fst (interpreter started_state (s1 ++ s2))) = [0; 0; 0; 294]
  /\ interrupted_bytechunk
       (fst (interpreter (fst (interpreter started_state s1)) s2))
     = Some [9].
Proof.
  intros s1 s2.
  assert (Hbb : binaryblock started_state = true) by reflexivity.
  assert (H1 : is_binary_data s1 = true) by reflexivity.
  assert (H2 : is_binary_data s2 = true) by reflexivity.
  assert (H12 : is_binary_data (s1 ++ s2) = true) by reflexivity.
  assert (Hlast : Py.last_slice s1 <> [252]) by (intros H; discriminate H).
  assert (Hfirst : Py.first_slice s2 <> [252])
    by (intros H; discriminate H).
  assert (Hfin : snd (interpreter started_state s1) = Finished)
    by reflexivity.
  destruct (interpreter_split_buffers started_state s1 s2
              Hbb H1 H2 H12 Hlast Hfirst Hfin) as (Hy & Hf & _).
  split; [exact Hbb|]. split; [exact H1|]. split; [exact H2|].
  split; [exact H12|]. split; [exact Hlast|]. split; [exact Hfirst|].
  split; [exact Hfin|].
  split; [rewrite Hy; reflexivity|].
  split; [reflexivity | rewrite Hf; reflexivity].
Defined.

(** C1. The code misses the split property at a cut in front of the
    end-of-stream byte.  The stream [251,251]x4, [251,20], [252] is a whole
    spectrum of 1024 zeros and its end-of-stream byte.  In one buffer the
    zero-run loop stops at the 252 and the stream decodes to 1024 entries.
    Cut in front of the 252, the held run is put in front of the chunk
    [252] by the branch for a buffer that starts with 252, and that chunk
    is then reconstructed as a value of its own, 0: 1025 entries, and
    [=>End(binary)] raises [ScintomaticError] on a valid spectrum. *)
Lemma split_before_252_appends_an_entry :
  let s1 := [251; 251; 251; 251; 251; 251; 251; 251; 251; 20] in
  let s2 := [252] in
  let whole := fst (interpreter started_state (s1 ++ s2)) in
  let cut := fst (interpreter (fst (interpreter started_state s1)) s2) in
  ydata whole = repeat 0 1024
  /\ ydata cut = repeat 0 1025
  /\ ydata cut <> ydata whole
  /\ snd (interpreter whole Marker.end_binary) = Finished
  /\ snd (interpreter cut Marker.end_binary)
     = Raised (ScintomaticError 1025).
Proof.
  intros s1 s2 whole cut.
  assert (Hw : ydata whole = repeat 0 1024) by (vm_compute; reflexivity).
  assert (Hc : ydata cut = repeat 0 1025) by (vm_compute; reflexivity).
  split; [exact Hw|]. split; [exact Hc|]. split.
  - rewrite Hw, Hc. intros H. apply (f_equal (@length Z)) in H.
    rewrite !repeat_length in H. discriminate H.
  - split; vm_compute; reflexivity.
Qed.

(** The other conditions of the split property are needed as well: a first
    buffer made of newlines only is dropped before the binary branch, with
    the count 10 it carried, and a cut right behind a 252 lets the bytes
    behind it be decoded, which [byte_reconstructor] ignores in one
    chunk. *)
Example newline_buffer_is_dropped :
  ydata (fst (interpreter started_state ([10] ++ [255]))) = [10]
  /\ interpreter started_state [10] = (started_state, ReturnedFalse)
  /\ ydata (fst (interpreter (fst (interpreter started_state [10])) [255]))
     = [].
Proof. repeat split. Qed.

Example split_behind_252 :
  ydata (fst (interpreter started_state ([5; 252] ++ [7; 255]))) = [5]
  /\ ydata (fst (interpreter (fst (interpreter started_state [5; 252]))
                   [7; 255]))
     = [5; 7].
Proof. repeat split. Qed.

Example empty_buffer_is_a_no_op (st : state) :
  interpreter st [] = (st, ReturnedFalse).
Proof. reflexivity. Qed.

(** The scenario of the specification: [251, 5, 255] then [10, 255]. *)
Example scenario_five_zeros_then_ten :
  ydata (interpreter_calls started_state [[251; 5; 255]; [10; 255]])
  = [0; 0; 0; 0; 0; 10].
Proof. reflexivity. Qed.

(** * Further properties of the decoder *)

(** ** [byte_reconstructor] *)

Lemma horner_app (a b : list Z) :
  horner (a ++ b) = horner a + 250 ^ Z.of_nat (length a) * horner b.
Proof.
  induction a as [|x a IH].
  - cbn [app horner length]. change (250 ^ Z.of_nat 0) with 1. ring.
  - cbn [app horner length]. rewrite IH.
    replace (Z.of_nat (S (length a))) with (Z.of_nat (length a) + 1) by lia.
    rewrite Z.pow_add_r by lia. change (250 ^ 1) with 250. ring.
Qed.

Lemma before_252_app (a b : list Z) :
  ~ In 252 a -> before_252 (a ++ b) = a ++ before_252 b.
Proof.
  induction a as [|x a IH]; intros Ha; [reflexivity|].
  cbn [app before_252].
  destruct (x =? 252) eqn:E.
  - apply Z.eqb_eq in E. subst x. elim Ha. now left.
  - rewrite IH; [reflexivity|]. intros H. apply Ha. now right.
Qed.

Lemma before_252_all (a : list Z) : ~ In 252 a -> before_252 a = a.
Proof.
  intros Ha. rewrite <- (app_nil_r a) at 1.
  rewrite before_252_app by exact Ha. apply app_nil_r.
Qed.

(** X1. Little-endian composition: when the bytes [low] hold no 252, the
    value of [low ++ high] is the value of [low] plus [250^len(low)] times
    the value of [high]. *)
Theorem byte_reconstructor_app (low high : list Z) :
  ~ In 252 low ->
  byte_reconstructor (low ++ high)
  = byte_reconstructor low
    + 250 ^ Z.of_nat (length low) * byte_reconstructor high.
Proof.
  intros Hlow. rewrite !byte_reconstructor_horner.
  rewrite (before_252_app low high Hlow), (before_252_all low Hlow).
  now rewrite map_app, horner_app, length_map.
Qed.

Lemma byte_reconstructor_app_witness :
  ~ In 252 [50; 1]
  /\ byte_reconstructor ([50; 1] ++ [2; 252; 9])
     = byte_reconstructor [50; 1] + 250 ^ 2 * byte_reconstructor [2; 252; 9]
  /\ byte_reconstructor ([50; 1] ++ [2; 252; 9]) = 125300.
Proof.
  assert (H : ~ In 252 [50; 1]) by (cbn; intuition discriminate).
  split; [exact H|]. split; [|reflexivity].
  exact (byte_reconstructor_app [50; 1] [2; 252; 9] H).
Defined.

Lemma translate_digit_byte (byte : Z) :
  is_digit_byte byte -> 0 <= translate_byte byte <= 249.
Proof.
  unfold is_digit_byte, translate_byte. intros [H | [-> | ->]];
    [|cbn; lia | cbn; lia].
  destruct (byte =? 253) eqn:E3; [apply Z.eqb_eq in E3; lia|].
  destruct (byte =? 254) eqn:E4; [apply Z.eqb_eq in E4; lia|].
  exact H.
Qed.

Lemma horner_digits_bound (digits : list Z) :
  Forall (fun d => 0 <= d <= 249) digits ->
  0 <= horner digits < 250 ^ Z.of_nat (length digits).
Proof.
  induction 1 as [|d digits Hd _ IH].
  - cbn. lia.
  - cbn [horner length].
    replace (Z.of_nat (S (length digits)))
      with (Z.of_nat (length digits) + 1) by lia.
    rewrite Z.pow_add_r by lia. change (250 ^ 1) with 250. lia.
Qed.

Lemma horner_digits_inj (digits1 digits2 : list Z) :
  Forall (fun d => 0 <= d <= 249) digits1 ->
  Forall (fun d => 0 <= d <= 249) digits2 ->
  length digits1 = length digits2 ->
  horner digits1 = horner digits2 ->
  digits1 = digits2.
Proof.
  intros H1. revert digits2.
  induction H1 as [|d1 digits1 Hd1 _ IH]; intros digits2 H2 Hlen Heq.
  - destruct digits2; [reflexivity | discriminate Hlen].
  - destruct H2 as [|d2 digits2 Hd2 H2]; [discriminate Hlen|].
    cbn [horner] in Heq. injection Hlen as Hlen.
    assert (d1 = d2 /\ horner digits1 = horner digits2) as [-> Hh] by lia.
    f_equal. now apply IH.
Qed.

Lemma digit_bytes_translate (l : list Z) :
  Forall is_digit_byte l ->
  Forall (fun d => 0 <= d <= 249) (map translate_byte l).
Proof.
  induction 1 as [|b l Hb _ IH]; cbn [map]; constructor;
    [now apply translate_digit_byte | exact IH].
Qed.

Lemma digit_bytes_no_252 (l : list Z) :
  Forall is_digit_byte l -> ~ In 252 l.
Proof.
  intros H Hin. rewrite Forall_forall in H. apply H in Hin.
  unfold is_digit_byte in Hin. lia.
Qed.

(** X2. On chunks of digit bytes (0 to 249, or 253 and 254 for 13 and 35)
    the value is a proper base-250 number: it lies from 0 up to, but below,
    [250^len], and two such chunks of the same length with the same value
    hold the same digits. *)
Theorem byte_reconstructor_digits (l1 l2 : list Z) :
  Forall is_digit_byte l1 ->
  Forall is_digit_byte l2 ->
  (0 <= byte_reconstructor l1 < 250 ^ Z.of_nat (length l1))
  /\ (length l1 = length l2 ->
      byte_reconstructor l1 = byte_reconstructor l2 ->
      map translate_byte l1 = map translate_byte l2).
Proof.
  intros H1 H2. rewrite !byte_reconstructor_horner.
  rewrite !before_252_all by now apply digit_bytes_no_252.
  split.
  - rewrite <- (length_map translate_byte l1).
    now apply horner_digits_bound, digit_bytes_translate.
  - intros Hlen Heq.
    apply horner_digits_inj; try now apply digit_bytes_translate.
    + now rewrite !length_map.
    + exact Heq.
Qed.

Lemma byte_reconstructor_digits_witness :
  Forall is_digit_byte [253; 1] /\ Forall is_digit_byte [13; 1]
  /\ 0 <= byte_reconstructor [253; 1] < 250 ^ 2
  /\ map translate_byte [253; 1] = map translate_byte [13; 1].
Proof.
  assert (H1 : Forall is_digit_byte [253; 1])
    by (repeat constructor; unfold is_digit_byte; lia).
  assert (H2 : Forall is_digit_byte [13; 1])
    by (repeat constructor; unfold is_digit_byte; lia).
  destruct (byte_reconstructor_digits [253; 1] [13; 1] H1 H2) as [Hb Hi].
  split; [exact H1|]. split; [exact H2|]. split; [exact Hb|].
  apply Hi; reflexivity.
Defined.

(** Outside the digit bytes the value is no proper base-250 number: the
    bytes 250 and 251 are taken as digits too. *)
Example byte_250_is_taken_as_a_digit :
  byte_reconstructor [250] = byte_reconstructor [0; 1]
  /\ byte_reconstructor [7; 251] = 7 + 251 * 250.
Proof. split; reflexivity. Qed.

(** ** Chunks *)

Lemma zero_run_loop_shape (rest : list Z) :
  exists (k : nat) (tail : list Z),
    fst (zero_run_loop rest []) = repeat 0 k ++ tail
    /\ (length tail <= 1)%nat.
Proof.
  remember (length rest) as n eqn:Hn.
  assert (Hle : (length rest <= n)%nat) by lia. clear Hn.
  revert rest Hle. induction n as [|n IH]; intros rest Hle.
  - destruct rest; [|simpl in Hle; lia]. exists 0%nat, []. split; [reflexivity | cbn; lia].
  - destruct rest as [|byte after]; [exists 0%nat, []; split; [reflexivity | cbn; lia]|].
    cbn [zero_run_loop]. destruct (byte =? 251).
    + destruct after as [|count rest']; [exists 0%nat, []; split; [reflexivity | cbn; lia]|].
      destruct (IH rest') as (k & tail & Hk & Htail);
        [simpl in Hle; lia|].
      cbn [app].
      rewrite <- (app_nil_r (Py.zeros (byte_reconstructor [count]))).
      rewrite zero_run_loop_app. cbn [fst]. rewrite Hk.
      unfold Py.zeros.
      exists (Z.to_nat (byte_reconstructor [count]) + k)%nat, tail.
      split; [|exact Htail].
      now rewrite repeat_app, <- app_assoc.
    + destruct (byte =? 252); [exists 0%nat, []; split; [reflexivity | cbn; lia]|].
      exists 0%nat, [byte_reconstructor (byte :: after)]. split; [reflexivity | cbn; lia].
Qed.

(** X3. Whatever its bytes, a chunk appends a run of zeros followed by at
    most one further entry: there is never more than one reconstructed
    value per chunk, and it comes last. *)
Theorem chunk_appends_zeros_then_at_most_one_value
  (bytechunk ydata : list Z) :
  exists (k : nat) (tail : list Z),
    fst (interpret_chunk bytechunk ydata) = ydata ++ repeat 0 k ++ tail
    /\ (length tail <= 1)%nat.
Proof.
  rewrite interpret_chunk_entries. cbn [fst]. unfold chunk_entries.
  unfold interpret_chunk. destruct bytechunk as [|first more].
  - exists 0%nat, []. split; [reflexivity | cbn; lia].
  - destruct (first =? 251).
    + destruct (zero_run_loop_shape (first :: more)) as (k & tail & Hk & Ht).
      exists k, tail. rewrite Hk. split; [reflexivity | exact Ht].
    + exists 0%nat, [byte_reconstructor (first :: more)]. split; [reflexivity | cbn; lia].
Qed.

Lemma zero_run_loop_raises_iff (rest ydata : list Z) :
  snd (zero_run_loop rest ydata) = Some IndexError
  <-> exists counts, rest = zero_run_pairs counts ++ [251].
Proof.
  split.
  - remember (length rest) as n eqn:Hn.
    assert (Hle : (length rest <= n)%nat) by lia. clear Hn.
    revert rest ydata Hle. induction n as [|n IH]; intros rest ydata Hle.
    + destruct rest; [discriminate | simpl in Hle; lia].
    + destruct rest as [|byte after]; [discriminate|].
      cbn [zero_run_loop]. destruct (byte =? 251) eqn:E.
      * apply Z.eqb_eq in E. subst byte.
        destruct after as [|count rest']; [intros _; now exists []|].
        intros H. apply IH in H; [|simpl in Hle; lia].
        destruct H as [counts ->]. now exists (count :: counts).
      * destruct (byte =? 252); discriminate.
  - intros [counts ->]. revert ydata.
    induction counts as [|count counts IH]; intros ydata; [reflexivity|].
    cbn [zero_run_pairs flat_map app zero_run_loop].
    change (251 =? 251) with true. cbv iota. apply IH.
Qed.

(** X4. A chunk raises [IndexError] exactly when it is a sequence of pairs
    (251, count), possibly none, followed by one more 251: the zero-run
    marker without its count. *)
Theorem interpret_chunk_raises_iff (bytechunk ydata : list Z) :
  snd (interpret_chunk bytechunk ydata) = Some IndexError
  <-> exists counts, bytechunk = zero_run_pairs counts ++ [251].
Proof.
  unfold interpret_chunk. destruct bytechunk as [|first more].
  - split; [discriminate|]. intros [[|c counts] H]; discriminate H.
  - destruct (first =? 251) eqn:E; [apply zero_run_loop_raises_iff|].
    split; [discriminate|].
    intros [[|c counts] H]; injection H as -> _; discriminate E.
Qed.

Lemma sum_counts_nonneg (counts : list Z) :
  Forall (fun count => 1 <= count <= 251) counts -> 0 <= Py.sum counts.
Proof.
  induction 1 as [|c counts Hc _ IH].
  - reflexivity.
  - rewrite sum_cons. lia.
Qed.

Lemma zero_run_loop_pairs_then_value (counts value ydata : list Z) :
  Forall (fun count => 1 <= count <= 251) counts ->
  match value with
  | [] => True
  | first :: _ => first <> 251 /\ first <> 252
  end ->
  zero_run_loop (zero_run_pairs counts ++ value) ydata
  = (ydata ++ repeat 0 (Z.to_nat (Py.sum counts))
       ++ match value with
          | [] => []
          | _ :: _ => [byte_reconstructor value]
          end,
     None).
Proof.
  intros Hcounts Hvalue. revert ydata.
  induction Hcounts as [|count counts Hc Hcounts IH]; intros ydata.
  - cbn [zero_run_pairs flat_map app]. change (Py.sum []) with 0.
    cbn [Z.to_nat repeat app].
    destruct value as [|first more]; [now rewrite app_nil_r|].
    destruct Hvalue as [H1 H2]. cbn [zero_run_loop].
    apply Z.eqb_neq in H1, H2. now rewrite H1, H2.
  - cbn [zero_run_pairs flat_map app zero_run_loop].
    change (251 =? 251) with true. cbv iota.
    fold (zero_run_pairs counts). rewrite IH.
    unfold Py.zeros. rewrite run_length_plain by exact Hc.
    rewrite sum_cons.
    pose proof (sum_counts_nonneg counts Hcounts).
    rewrite Z2Nat.inj_add by lia.
    now rewrite repeat_app, <- !app_assoc.
Qed.

(** X5. The chunk grammar of the docstring: a chunk made of pairs
    (251, count), counts from 1 to 251, followed by the bytes of a value
    that starts with neither 251 nor 252 (or by nothing), appends as many
    zeros as the counts add up to, then the reconstructed value (or
    nothing), and raises nothing. *)
Theorem zero_runs_then_value (counts value ydata : list Z) :
  Forall (fun count => 1 <= count <= 251) counts ->
  match value with
  | [] => True
  | first :: _ => first <> 251 /\ first <> 252
  end ->
  interpret_chunk (zero_run_pairs counts ++ value) ydata
  = (ydata ++ repeat 0 (Z.to_nat (Py.sum counts))
       ++ match value with
          | [] => []
          | _ :: _ => [byte_reconstructor value]
          end,
     None).
Proof.
  intros Hcounts Hvalue.
  rewrite <- (zero_run_loop_pairs_then_value counts value ydata Hcounts Hvalue).
  unfold interpret_chunk.
  destruct counts as [|count counts].
  - cbn [zero_run_pairs flat_map app].
    destruct value as [|first more]; [reflexivity|].
    destruct Hvalue as [H1 H2]. cbn [zero_run_loop].
    apply Z.eqb_neq in H1, H2. now rewrite H1, H2.
  - reflexivity.
Qed.

Lemma zero_runs_then_value_witness :
  Forall (fun count => 1 <= count <= 251) [251; 251; 3]
  /\ interpret_chunk (zero_run_pairs [251; 251; 3] ++ [44; 1]) [9]
     = ([9] ++ repeat 0 505 ++ [294], None).
Proof.
  assert (H : Forall (fun count => 1 <= count <= 251) [251; 251; 3])
    by (repeat constructor; lia).
  split; [exact H|].
  apply (zero_runs_then_value [251; 251; 3] [44; 1] [9] H).
  split; discriminate.
Defined.

Lemma bytechunk_interpreter_prefix (bytechunks : list (list Z))
  (ydata : list Z) :
  exists appended,
    fst (bytechunk_interpreter bytechunks ydata) = ydata ++ appended.
Proof.
  revert ydata. induction bytechunks as [|c cs IH]; intros ydata.
  - exists []. cbn. now rewrite app_nil_r.
  - cbn [bytechunk_interpreter]. rewrite interpret_chunk_entries.
    destruct (snd (interpret_chunk c [])).
    + now exists (chunk_entries c).
    + destruct (IH (ydata ++ chunk_entries c)) as [appended ->].
      exists (chunk_entries c ++ appended). now rewrite app_assoc.
Qed.

(** X6. Entries are only ever appended: whatever the buffer, and also
    when the call raises, a call of [interpreter] that takes one of the
    embedded branches leaves the old DecodedSpectrum as a prefix of the new
    one. *)
Theorem interpreter_only_appends (st : state) (rawbytes : list Z) :
  snd (interpreter st rawbytes) <> NotEmbedded ->
  exists appended,
    ydata (fst (interpreter st rawbytes)) = ydata st ++ appended.
Proof.
  assert (Hsame : ydata st = ydata st ++ []) by now rewrite app_nil_r.
  unfold interpreter.
  destruct (Py.bytes_eqb _ []); [intros _; now exists []|].
  destruct (Py.startswith _ Marker.start_time); [intros H; now elim H|].
  destruct (Py.startswith _ Marker.time_count); [intros H; now elim H|].
  destruct (Py.startswith _ Marker.start_binary); [intros _; now exists []|].
  destruct (Py.startswith _ Marker.end_binary).
  { intros _. unfold end_binary_branch.
    destruct (interrupted_bytechunk st) as [interrupted|];
      [|now exists []].
    destruct (bytechunk_interpreter_prefix [interrupted] (ydata st))
      as [appended Happ].
    destruct (bytechunk_interpreter [interrupted] (ydata st))
      as [ydata' [e|]]; cbn [fst] in Happ.
    - now exists appended.
    - destruct (negb _); now exists appended. }
  destruct (Py.startswith _ Marker.bitsum).
  { intros _. unfold bitsum_branch.
    destruct (Py.int _); now exists []. }
  destruct (binaryblock st); [|intros _; now exists []].
  intros _. unfold binary_branch.
  destruct (interrupted_bytechunk st) as [interrupted|]; [|now exists []].
  destruct (reassemble interrupted rawbytes) as [bytechunks held].
  destruct (bytechunk_interpreter_prefix bytechunks (ydata st))
    as [appended Happ].
  destruct (bytechunk_interpreter bytechunks (ydata st))
    as [ydata' [e|]]; cbn [fst] in Happ; now exists appended.
Qed.

Lemma interpreter_only_appends_witness :
  let st := fst (interpreter started_state [7; 255; 251]) in
  snd (interpreter st [255; 9; 255]) <> NotEmbedded
  /\ ydata st = [7]
  /\ snd (interpreter st [255; 9; 255]) = Raised IndexError
  /\ exists appended,
       ydata (fst (interpreter st [255; 9; 255])) = [7] ++ appended.
Proof.
  intros st.
  assert (H : snd (interpreter st [255; 9; 255]) <> NotEmbedded)
    by (intros E; discriminate E).
  split; [exact H|]. split; [reflexivity|]. split; [reflexivity|].
  exact (interpreter_only_appends st [255; 9; 255] H).
Defined.

(** ** Splitting and reassembly *)

Lemma split_cons_eq (x : Z) (b : list Z) :
  Py.split 255 (x :: b)
  = if x =? 255 then [] :: Py.split 255 b
    else match Py.split 255 b with
         | c :: cs => (x :: c) :: cs
         | [] => [[x]]
         end.
Proof. reflexivity. Qed.

(** X7. The split/join law of the chunk splitter: the chunks of a buffer
    hold no separator, there is one more of them than there are
    separators in the buffer, and joined again with 255 they give the
    buffer back. *)
Theorem split_join (rawbytes : list Z) :
  bytes_join 255 (Py.split 255 rawbytes) = rawbytes
  /\ Forall (fun c => ~ In 255 c) (Py.split 255 rawbytes)
  /\ length (Py.split 255 rawbytes) = S (count_occ Z.eq_dec rawbytes 255).
Proof.
  induction rawbytes as [|x b (IHj & IHf & IHl)].
  - repeat split. repeat constructor. intros [].
  - rewrite split_cons_eq.
    destruct (split_nonempty 255 b) as (c & cs & Hs). rewrite Hs in *.
    destruct (x =? 255) eqn:E.
    + apply Z.eqb_eq in E. subst x. repeat split.
      * change (bytes_join 255 ([] :: c :: cs))
          with (255 :: bytes_join 255 (c :: cs)).
        now rewrite IHj.
      * constructor; [intros [] | exact IHf].
      * cbn [length count_occ]. destruct (Z.eq_dec 255 255); [|contradiction].
        now rewrite <- IHl.
    + apply Z.eqb_neq in E. repeat split.
      * rewrite <- IHj. destruct cs; reflexivity.
      * inversion IHf as [|? ? Hc Hcs]; subst. constructor; [|exact Hcs].
        intros [H | H]; [now apply E | now apply Hc].
      * cbn [length count_occ] in *.
        destruct (Z.eq_dec x 255); [contradiction | exact IHl].
Qed.

Lemma concat_split (rawbytes : list Z) :
  concat (Py.split 255 rawbytes) = without_separators rawbytes.
Proof.
  unfold without_separators. induction rawbytes as [|x b IH]; [reflexivity|].
  rewrite split_cons_eq. cbn [filter].
  destruct (split_nonempty 255 b) as (c & cs & Hs). rewrite Hs in *.
  destruct (x =? 255); cbn [negb concat app] in *; now rewrite <- IH.
Qed.

Lemma concat_merge_interrupted (f r : list Z) (cs : list (list Z)) :
  cs <> [] -> concat (merge_interrupted f r cs) = f ++ concat cs.
Proof.
  intros Hcs. unfold merge_interrupted.
  destruct (Py.bytes_eqb f []) eqn:Ef.
  - apply bytes_eqb_nil in Ef. now subst f.
  - cbn [negb]. destruct (Py.bytes_eqb _ [255]); [reflexivity|].
    destruct (Py.bytes_eqb _ [252]); [reflexivity|].
    destruct cs as [|c cs]; [contradiction|].
    cbn [concat]. now rewrite app_assoc.
Qed.

Lemma merge_interrupted_nonempty (f r : list Z) (cs : list (list Z)) :
  cs <> [] -> merge_interrupted f r cs <> [].
Proof.
  intros Hcs. unfold merge_interrupted.
  destruct (negb _); [|exact Hcs].
  destruct (Py.bytes_eqb _ [255]); [discriminate|].
  destruct (Py.bytes_eqb _ [252]); [discriminate|].
  destruct cs; [contradiction | discriminate].
Qed.

Lemma concat_hold_last (r : list Z) (cs : list (list Z)) :
  cs <> [] ->
  concat (fst (hold_last r cs)) ++ snd (hold_last r cs) = concat cs.
Proof.
  intros Hcs. unfold hold_last.
  destruct (negb _); cbn [fst snd]; [|apply app_nil_r].
  destruct (exists_last Hcs) as (init & L & ->).
  rewrite set_last_app, last_item_app by discriminate.
  cbn [Py.set_last Py.last_item last].
  rewrite !concat_app. cbn [concat]. now rewrite !app_nil_r.
Qed.

Lemma split_not_nil (rawbytes : list Z) : Py.split 255 rawbytes <> [].
Proof.
  destruct (split_nonempty 255 rawbytes) as (c & cs & ->). discriminate.
Qed.

Lemma reassemble_keeps_every_byte_aux (interrupted rawbytes : list Z) :
  concat (fst (reassemble interrupted rawbytes))
  ++ snd (reassemble interrupted rawbytes)
  = interrupted ++ without_separators rawbytes.
Proof.
  unfold reassemble.
  rewrite concat_hold_last
    by apply merge_interrupted_nonempty, split_not_nil.
  rewrite concat_merge_interrupted by apply split_not_nil.
  now rewrite concat_split.
Qed.

(** X8. Reassembly loses and repeats nothing: the chunks handed to chunk
    interpretation, followed by the chunk that is held back, hold the
    bytes of the chunk held before followed by the bytes of the buffer
    other than separators, in their order. *)
Theorem reassemble_keeps_every_byte (interrupted rawbytes : list Z) :
  concat (fst (reassemble interrupted rawbytes))
  ++ snd (reassemble interrupted rawbytes)
  = interrupted ++ without_separators rawbytes.
Proof. apply reassemble_keeps_every_byte_aux. Qed.

(** X9. A chunk is held back exactly when the buffer ends inside a chunk:
    for a buffer that is not empty, the chunk held after reassembly is
    empty if and only if the last byte of the buffer is 255 or 252; and
    when a chunk is held, the empty chunk stands in its place at the end of
    the list handed to chunk interpretation. *)
Theorem held_chunk_empty_iff (interrupted rawbytes : list Z) :
  rawbytes <> [] ->
  (snd (reassemble interrupted rawbytes) = []
   <-> Py.last_slice rawbytes = [255] \/ Py.last_slice rawbytes = [252])
  /\ (snd (reassemble interrupted rawbytes) <> [] ->
      last (fst (reassemble interrupted rawbytes)) [7] = []).
Proof.
  intros Hraw. destruct (exists_last Hraw) as (s & z & ->).
  unfold reassemble, hold_last. rewrite last_slice_snoc.
  cbn [Py.bytes_eqb]. rewrite !andb_true_r.
  destruct (split_app 255 (s ++ [z])) as (init & L & Hs & _).
  pose proof (split_last_byte s z init L Hs) as HL. rewrite Hs.
  destruct (z =? 255) eqn:E5.
  - apply Z.eqb_eq in E5. subst z. cbn [orb negb fst snd]. split.
    + split; [intros _; now left | reflexivity].
    + intros H. now elim H.
  - destruct (z =? 252) eqn:E2.
    + apply Z.eqb_eq in E2. subst z. cbn [orb negb fst snd]. split.
      * split; [intros _; now right | reflexivity].
      * intros H. now elim H.
    + cbn [orb negb fst snd].
      destruct (merge_interrupted_snoc interrupted (s ++ [z]) init L HL)
        as (P & L' & HL' & HP & _).
      rewrite HP, last_item_app, set_last_app by discriminate.
      cbn [Py.last_item last Py.set_last]. split.
      * split; [intros H; contradiction|].
        apply Z.eqb_neq in E5, E2.
        intros [H | H]; injection H as H; contradiction.
      * intros _. now rewrite last_last.
Qed.

Lemma held_chunk_empty_iff_witness :
  [7; 255; 44] <> []
  /\ snd (reassemble [] [7; 255; 44]) = [44]
  /\ fst (reassemble [] [7; 255; 44]) = [[7]; []]
  /\ (snd (reassemble [] [7; 255; 44]) = []
      <-> Py.last_slice [7; 255; 44] = [255]
          \/ Py.last_slice [7; 255; 44] = [252]).
Proof.
  assert (H : [7; 255; 44] <> []) by discriminate.
  split; [exact H|]. split; [reflexivity|]. split; [reflexivity|].
  exact (proj1 (held_chunk_empty_iff [] [7; 255; 44] H)).
Defined.

Lemma without_separators_no_255 (rawbytes : list Z) :
  ~ In 255 (without_separators rawbytes).
Proof.
  unfold without_separators. intros H. apply filter_In in H as [_ H].
  discriminate H.
Qed.

Lemma reassemble_no_separator (interrupted rawbytes : list Z) :
  ~ In 255 interrupted ->
  ~ In 255 (snd (reassemble interrupted rawbytes)).
Proof.
  intros Hf Hin.
  assert (H : In 255 (interrupted ++ without_separators rawbytes)).
  { rewrite <- reassemble_keeps_every_byte_aux. apply in_or_app. now right. }
  apply in_app_or in H as [H | H]; [now apply Hf|].
  now apply (without_separators_no_255 rawbytes).
Qed.

(** X10. The held chunk never holds a separator: if it holds none before
    a call of [interpreter] that takes one of the embedded branches, it
    holds none after it; [=>Start(binary)] makes it empty. *)
Theorem interpreter_keeps_fragment_without_separator
  (st : state) (rawbytes : list Z) :
  fragment_has_no_separator st ->
  snd (interpreter st rawbytes) <> NotEmbedded ->
  fragment_has_no_separator (fst (interpreter st rawbytes)).
Proof.
  unfold fragment_has_no_separator, interpreter. intros Hst.
  destruct (Py.bytes_eqb _ []); [intros _; exact Hst|].
  destruct (Py.startswith _ Marker.start_time); [intros H; now elim H|].
  destruct (Py.startswith _ Marker.time_count); [intros H; now elim H|].
  destruct (Py.startswith _ Marker.start_binary);
    [intros _; cbn; tauto|].
  destruct (Py.startswith _ Marker.end_binary).
  { intros _. unfold end_binary_branch.
    destruct (interrupted_bytechunk st) as [interrupted|] eqn:Hf;
      [|exact I].
    destruct (bytechunk_interpreter [interrupted] (ydata st))
      as [ydata' [e|]]; [exact Hst|].
    destruct (negb _); exact Hst. }
  destruct (Py.startswith _ Marker.bitsum).
  { intros _. unfold bitsum_branch.
    destruct (Py.int _); exact Hst. }
  destruct (binaryblock st); [|intros _; exact Hst].
  intros _. unfold binary_branch.
  destruct (interrupted_bytechunk st) as [interrupted|] eqn:Hf;
    [|cbn [fst]; now rewrite Hf].
  pose proof (reassemble_no_separator interrupted rawbytes Hst) as Hheld.
  destruct (reassemble interrupted rawbytes) as [bytechunks held].
  destruct (bytechunk_interpreter bytechunks (ydata st))
    as [ydata' [e|]]; exact Hheld.
Qed.

Lemma interpreter_keeps_fragment_without_separator_witness :
  fragment_has_no_separator started_state
  /\ snd (interpreter started_state [7; 255; 44; 1]) <> NotEmbedded
  /\ interrupted_bytechunk (fst (interpreter started_state [7; 255; 44; 1]))
     = Some [44; 1]
  /\ fragment_has_no_separator
       (fst (interpreter started_state [7; 255; 44; 1])).
Proof.
  assert (H1 : fragment_has_no_separator started_state)
    by (intros H; exact H).
  assert (H2 : snd (interpreter started_state [7; 255; 44; 1])
               <> NotEmbedded) by (intros E; discriminate E).
  split; [exact H1|]. split; [exact H2|]. split; [reflexivity|].
  exact (interpreter_keeps_fragment_without_separator _ _ H1 H2).
Defined.

(** ** Buffers that are not decoded *)

Lemma lstrip_all (c : Z) (b : list Z) :
  Forall (fun x => x = c) b -> Py.lstrip c b = [].
Proof.
  induction 1 as [|x b Hx _ IH]; [reflexivity|].
  cbn [Py.lstrip]. subst x. now rewrite Z.eqb_refl.
Qed.

(** X11. A buffer made of newline bytes only (an empty one too) changes
    nothing, in a binary block as outside of one: the call returns at once
    and the object stays as it was, so a count of 10 that travels alone in
    its buffer is lost. *)
Theorem newline_buffers_change_nothing (st : state) (rawbytes : list Z) :
  Forall (fun x => x = 10) rawbytes ->
  interpreter st rawbytes = (st, ReturnedFalse).
Proof.
  intros H. unfold interpreter, Py.strip, Py.rstrip.
  now rewrite (lstrip_all 10 rawbytes H).
Qed.

Lemma newline_buffers_change_nothing_witness :
  Forall (fun x => x = 10) [10; 10]
  /\ interpreter started_state [10; 10] = (started_state, ReturnedFalse).
Proof.
  assert (H : Forall (fun x => x = 10) [10; 10]) by now repeat constructor.
  split; [exact H|].
  exact (newline_buffers_change_nothing started_state [10; 10] H).
Defined.

Lemma interpreter_outside_a_block (st : state) (rawbytes : list Z) :
  binaryblock st = false ->
  keeps_block_state rawbytes = true ->
  let st' := fst (interpreter st rawbytes) in
  binaryblock st' = false
  /\ ydata st' = ydata st
  /\ bitsum st' = bitsum st
  /\ interrupted_bytechunk st' = interrupted_bytechunk st.
Proof.
  intros Hb H st'. subst st'. unfold keeps_block_state in H.
  unfold interpreter.
  repeat (apply andb_true_iff in H as [H ?]).
  repeat match goal with
         | Hn : negb ?c = true |- _ =>
             apply negb_true_iff in Hn; rewrite Hn
         end.
  destruct (Py.bytes_eqb _ []).
  { cbn [fst]. now repeat split. }
  destruct (Py.startswith _ Marker.bitsum).
  - unfold bitsum_branch.
    destruct (Py.int _);
      cbn [fst binaryblock ydata bitsum interrupted_bytechunk];
      now repeat split.
  - rewrite Hb.
    cbn [fst binaryblock ydata bitsum interrupted_bytechunk].
    now repeat split.
Qed.

(** X12. Outside a binary block nothing is decoded.  From an object with
    [binaryblock] unset, let [interpreter] be called on any sequence of
    buffers whose lines start with none of [Start Time ], [{t ],
    [=>Start(binary)] and [=>End(binary)]: [Bitsum:] lines, readable or
    not, empty buffers, and bytes that would be spectrum data inside a
    block.  Then the block stays closed and DecodedSpectrum, the bit count
    and the held chunk are at the end what they were at the start. *)
Theorem outside_a_block_nothing_is_decoded
  (buffers : list (list Z)) (st : state) :
  binaryblock st = false ->
  Forall (fun rawbytes => keeps_block_state rawbytes = true) buffers ->
  let st' := interpreter_calls st buffers in
  binaryblock st' = false
  /\ ydata st' = ydata st
  /\ bitsum st' = bitsum st
  /\ interrupted_bytechunk st' = interrupted_bytechunk st.
Proof.
  intros Hb Hall. revert st Hb.
  induction Hall as [|rawbytes more Hraw _ IH]; intros st Hb.
  - now repeat split.
  - cbn [interpreter_calls].
    destruct (interpreter_outside_a_block st rawbytes Hb Hraw)
      as (Hb1 & Hy1 & Hs1 & Hf1).
    destruct (IH _ Hb1) as (Hb2 & Hy2 & Hs2 & Hf2).
    cbv zeta. rewrite Hy2, Hs2, Hf2, Hy1, Hs1, Hf1.
    now repeat split.
Qed.

Lemma outside_a_block_nothing_is_decoded_witness :
  let st := fst (interpreter (fst (interpreter started_state [7; 255; 44]))
                   Marker.end_binary) in
  let buffers :=
    [[251; 5; 255]; Marker.bitsum ++ [49; 50; 13]; [10];
     Marker.bitsum ++ [120]; [7; 255; 9]] in
  binaryblock st = false
  /\ Forall (fun rawbytes => keeps_block_state rawbytes = true) buffers
  /\ ydata st = [7; 44]
  /\ interrupted_bytechunk st = Some [44]
  /\ snd (interpreter st (Marker.bitsum ++ [120])) = Raised ValueError
  /\ ydata (interpreter_calls st buffers) = [7; 44]
  /\ interrupted_bytechunk (interpreter_calls st buffers) = Some [44].
Proof.
  intros st buffers.
  assert (H1 : binaryblock st = false) by reflexivity.
  assert (H2 : Forall (fun rawbytes => keeps_block_state rawbytes = true)
                 buffers) by (repeat constructor).
  destruct (outside_a_block_nothing_is_decoded buffers st H1 H2)
    as (_ & Hy & _ & Hf).
  split; [exact H1|]. split; [exact H2|]. split; [reflexivity|].
  split; [reflexivity|]. split; [reflexivity|].
  split; [exact Hy | exact Hf].
Defined.

(** [=>End(binary)] is not among these lines: it interprets the held
    chunk, which it leaves in place, also when no block is open; sent a
    second time, it appends the entries of the held chunk once more. *)
Example end_binary_twice_appends_the_held_chunk_twice :
  let st := fst (interpreter started_state [7; 255; 44]) in
  ydata (interpreter_calls st [Marker.end_binary]) = [7; 44]
  /\ ydata (interpreter_calls st [Marker.end_binary; Marker.end_binary])
     = [7; 44; 44].
Proof. split; reflexivity. Qed.

(** ** The bit count *)

Lemma pos_ones_size (p : positive) :
  0 < Py.pos_ones p <= Z.pos (Pos.size p).
Proof.
  induction p as [p IH | p IH |]; cbn [Py.pos_ones Pos.size]; lia.
Qed.

Lemma size_of_byte (p : positive) : Z.pos p <= 255 -> Z.pos (Pos.size p) <= 8.
Proof.
  intros Hp.
  destruct (Z.le_gt_cases (Z.pos (Pos.size p)) 8) as [H | H]; [exact H|].
  exfalso.
  pose proof (Pos.size_le p) as Hle.
  apply Pos2Z.pos_le_pos in Hle. rewrite Pos2Z.inj_pow in Hle.
  assert (Hpow : 2 ^ 9 <= 2 ^ Z.pos (Pos.size p))
    by (apply Z.pow_le_mono_r; lia).
  change (2 ^ 9) with 512 in Hpow.
  lia.
Qed.

Lemma bin_count_ones_byte (x : Z) :
  0 <= x <= 255 -> 0 <= Py.bin_count_ones x <= 8.
Proof.
  intros Hx. destruct x as [|p|p]; cbn [Py.bin_count_ones]; [lia | | lia].
  pose proof (pos_ones_size p). pose proof (size_of_byte p). lia.
Qed.

Lemma sum_bin_count_ones (rawbytes : list Z) :
  Forall (fun x => 0 <= x <= 255) rawbytes ->
  0 <= Py.sum (map Py.bin_count_ones rawbytes)
    <= 8 * Z.of_nat (length rawbytes).
Proof.
  induction 1 as [|x b Hx _ IH].
  - cbn. lia.
  - cbn [map length]. rewrite sum_cons.
    pose proof (bin_count_ones_byte x Hx). lia.
Qed.

(** X13. The bit count of a binary block: a buffer that is decoded to its
    end adds the number of set bits of all its bytes, separators and
    newlines included, which is at most 8 per byte; a buffer whose decoding
    raises adds nothing. *)
Theorem bitsum_counts_the_bits_of_decoded_buffers
  (st : state) (rawbytes : list Z) :
  binaryblock st = true ->
  is_binary_data rawbytes = true ->
  Forall (fun x => 0 <= x <= 255) rawbytes ->
  let st' := fst (interpreter st rawbytes) in
  let out := snd (interpreter st rawbytes) in
  (out = Finished ->
   bitsum st' = bitsum st + Py.sum (map Py.bin_count_ones rawbytes))
  /\ (out <> Finished -> bitsum st' = bitsum st)
  /\ bitsum st <= bitsum st' <= bitsum st + 8 * Z.of_nat (length rawbytes).
Proof.
  intros Hb Hdata Hbytes st' out. subst st' out.
  rewrite (interpreter_binary st rawbytes Hb Hdata).
  pose proof (sum_bin_count_ones rawbytes Hbytes) as Hsum.
  unfold binary_branch.
  destruct (interrupted_bytechunk st) as [interrupted|].
  - destruct (reassemble interrupted rawbytes) as [bytechunks held].
    destruct (bytechunk_interpreter bytechunks (ydata st))
      as [ydata' [e|]]; cbn [fst snd bitsum].
    + split; [discriminate|]. split; [reflexivity | lia].
    + split; [reflexivity|]. split; [intros H; now elim H | lia].
  - cbn [fst snd]. split; [discriminate|]. split; [reflexivity | lia].
Qed.

Lemma bitsum_counts_the_bits_of_decoded_buffers_witness :
  binaryblock started_state = true
  /\ is_binary_data [10; 7; 255; 10] = true
  /\ Forall (fun x => 0 <= x <= 255) [10; 7; 255; 10]
  /\ snd (interpreter started_state [10; 7; 255; 10]) = Finished
  /\ bitsum (fst (interpreter started_state [10; 7; 255; 10]))
     = bitsum started_state + 15.
Proof.
  assert (H1 : binaryblock started_state = true) by reflexivity.
  assert (H2 : is_binary_data [10; 7; 255; 10] = true) by reflexivity.
  assert (H3 : Forall (fun x => 0 <= x <= 255) [10; 7; 255; 10])
    by (repeat constructor; lia).
  assert (H4 : snd (interpreter started_state [10; 7; 255; 10]) = Finished)
    by reflexivity.
  split; [exact H1|]. split; [exact H2|]. split; [exact H3|].
  split; [exact H4|].
  destruct (bitsum_counts_the_bits_of_decoded_buffers
              started_state [10; 7; 255; 10] H1 H2 H3) as (H & _).
  rewrite (H H4). reflexivity.
Defined.

(** ** The spectrum panel and the saved rows *)

Lemma nth_error_combine_range (ys : list Z) (a k : nat) (count : Z) :
  nth_error ys k = Some count ->
  nth_error (combine (map Z.of_nat (seq a (length ys))) ys) k
  = Some (Z.of_nat (a + k), count).
Proof.
  revert a k. induction ys as [|y ys IH]; intros a k H.
  - destruct k; discriminate H.
  - destruct k as [|k]; cbn [length seq map combine nth_error] in *.
    + injection H as ->. now rewrite Nat.add_0_r.
    + rewrite (IH (S a) k H). do 3 f_equal. lia.
Qed.

(** X14. After a call of [bytechunk_interpreter] that runs to its end the
    channel numbers are the positions: [xdata] is 0, 1, ... up to the
    length of [ydata], and [saveData] writes one line per entry, line [k]
    being [k], a tab, the count of channel [k] and a newline. *)
Theorem saved_rows_after_decoding
  (bytechunks : list (list Z)) (panel panel' : spectrumpanel) :
  bytechunk_interpreter_panel bytechunks panel = (panel', None) ->
  panel_xdata panel' = range (length (panel_ydata panel'))
  /\ length (saveData_rows panel') = length (panel_ydata panel')
  /\ forall (k : nat) (count : Z),
      nth_error (panel_ydata panel') k = Some count ->
      nth_error (saveData_rows panel') k
      = Some (str_int (Z.of_nat k) ++ [9] ++ str_int count ++ [10]).
Proof.
  unfold bytechunk_interpreter_panel.
  destruct (bytechunk_interpreter bytechunks (panel_ydata panel))
    as [ydata' [e|]]; [discriminate|].
  intros H. injection H as <-. cbn [panel_xdata panel_ydata].
  split; [reflexivity|]. split.
  - unfold saveData_rows. cbn [panel_xdata panel_ydata].
    rewrite length_map, length_combine. unfold range.
    rewrite length_map, length_seq. apply Nat.min_id.
  - intros k count Hk. unfold saveData_rows, range.
    cbn [panel_xdata panel_ydata].
    rewrite nth_error_map, (nth_error_combine_range ydata' 0 k count Hk).
    reflexivity.
Qed.

Lemma saved_rows_after_decoding_witness :
  bytechunk_interpreter_panel [[251; 2; 44; 1]; [7]] reinit
  = (mkPanel [0; 1; 2; 3] [0; 0; 294; 7], None)
  /\ saveData_rows (mkPanel [0; 1; 2; 3] [0; 0; 294; 7])
     = [[48; 9; 48; 10]; [49; 9; 48; 10];
        [50; 9; 50; 57; 52; 10]; [51; 9; 55; 10]].
Proof.
  assert (H : bytechunk_interpreter_panel [[251; 2; 44; 1]; [7]] reinit
              = (mkPanel [0; 1; 2; 3] [0; 0; 294; 7], None))
    by reflexivity.
  split; [exact H|].
  destruct (saved_rows_after_decoding _ _ _ H) as (_ & _ & Hrow).
  pose proof (Hrow 2%nat 294 eq_refl) as H2.
  reflexivity.
Defined.

Lemma combine_app_r {A B : Type} (l1 : list A) (l2 extra : list B) :
  length l1 = length l2 -> combine l1 (l2 ++ extra) = combine l1 l2.
Proof.
  revert l2. induction l1 as [|x l1 IH]; intros [|y l2] H;
    try discriminate H; [reflexivity|].
  cbn [app combine]. injection H as H. now rewrite IH.
Qed.

(** X15. After a call of [bytechunk_interpreter] that raises, [xdata] is
    not brought up to date: on a panel whose channel numbers were the
    positions, [ydata] has grown by the entries appended before the
    exception, but [saveData] still writes the old lines only. *)
Theorem saved_rows_after_an_exception
  (bytechunks : list (list Z)) (panel : spectrumpanel) :
  panel_xdata panel = range (length (panel_ydata panel)) ->
  snd (bytechunk_interpreter_panel bytechunks panel) <> None ->
  let panel' := fst (bytechunk_interpreter_panel bytechunks panel) in
  panel_xdata panel' = panel_xdata panel
  /\ panel_ydata panel'
     = fst (bytechunk_interpreter bytechunks (panel_ydata panel))
  /\ saveData_rows panel' = saveData_rows panel.
Proof.
  intros Hx. unfold bytechunk_interpreter_panel.
  destruct (bytechunk_interpreter_prefix bytechunks (panel_ydata panel))
    as [appended Happ].
  destruct (bytechunk_interpreter bytechunks (panel_ydata panel))
    as [ydata' [e|]]; cbn [fst snd] in *; [|intros H; now elim H].
  intros _. cbn [panel_xdata panel_ydata].
  split; [reflexivity|]. split; [reflexivity|].
  unfold saveData_rows. cbn [panel_xdata panel_ydata]. subst ydata'.
  rewrite combine_app_r; [reflexivity|].
  rewrite Hx. unfold range. now rewrite length_map, length_seq.
Qed.

Lemma saved_rows_after_an_exception_witness :
  let panel := mkPanel [0] [7] in
  let panel' := fst (bytechunk_interpreter_panel [[251; 2; 251]] panel) in
  panel_xdata panel = range (length (panel_ydata panel))
  /\ snd (bytechunk_interpreter_panel [[251; 2; 251]] panel) <> None
  /\ panel_ydata panel' = [7; 0; 0]
  /\ saveData_rows panel' = [[48; 9; 55; 10]].
Proof.
  intros panel panel'.
  assert (H1 : panel_xdata panel = range (length (panel_ydata panel)))
    by reflexivity.
  assert (H2 : snd (bytechunk_interpreter_panel [[251; 2; 251]] panel)
               <> None) by discriminate.
  destruct (saved_rows_after_an_exception [[251; 2; 251]] panel H1 H2)
    as (_ & Hy & Hrows).
  split; [exact H1|]. split; [exact H2|].
  split; [exact Hy | exact Hrows].
Defined.

(** ** A stream cut into any number of buffers *)

Lemma binary_branch_two_buffers (st : state) (s s2' r1 r2 r : list Z)
  (z b : Z) :
  z <> 252 -> b <> 252 ->
  snd (binary_branch st ((s ++ [z]) ++ b :: s2') r) = Finished ->
  let first_call := binary_branch st (s ++ [z]) r1 in
  let second_call := binary_branch (fst first_call) (b :: s2') r2 in
  let whole := binary_branch st ((s ++ [z]) ++ b :: s2') r in
  snd first_call = Finished
  /\ snd second_call = Finished
  /\ ydata (fst second_call) = ydata (fst whole)
  /\ interrupted_bytechunk (fst second_call)
     = interrupted_bytechunk (fst whole)
  /\ bitsum (fst second_call) = bitsum (fst whole)
  /\ binaryblock (fst first_call) = binaryblock st.
Proof.
  intros Hz Hb. unfold binary_branch.
  destruct (interrupted_bytechunk st) as [f0|]; [|discriminate].
  destruct (reassemble f0 (s ++ [z])) as [C1 f1] eqn:R1.
  destruct (reassemble f0 ((s ++ [z]) ++ b :: s2')) as [C f] eqn:R.
  destruct (reassemble f1 (b :: s2')) as [C2 f2] eqn:R2.
  destruct (reassemble_split f0 s s2' z b Hz Hb _ _ _ _ _ _ R1 R2 R)
    as [<- Hchunks].
  rewrite (bytechunk_interpreter_skips_empty C), <- Hchunks.
  rewrite <- bytechunk_interpreter_skips_empty, bytechunk_interpreter_app.
  destruct (bytechunk_interpreter C1 (ydata st)) as [y1 [e|]];
    [discriminate|].
  cbn [fst snd interrupted_bytechunk ydata bitsum]. rewrite R2.
  destruct (bytechunk_interpreter C2 y1) as [y2 [e|]]; [discriminate|].
  intros _. cbn [fst snd interrupted_bytechunk ydata bitsum binaryblock].
  repeat split.
  rewrite (map_app _ (s ++ [z]) (b :: s2')), sum_app.
  symmetry. apply Z.add_assoc.
Qed.

Lemma binary_calls_concat (buffers : list (list Z)) :
  forall st : state,
    buffers <> [] ->
    Forall (fun b => b <> []) buffers ->
    cuts_clear_of_252 buffers ->
    snd (binary_branch st (concat buffers) (Py.strip 10 (concat buffers)))
    = Finished ->
    let cut := binary_calls st buffers in
    let whole :=
      binary_branch st (concat buffers) (Py.strip 10 (concat buffers)) in
    snd cut = Finished
    /\ ydata (fst cut) = ydata (fst whole)
    /\ interrupted_bytechunk (fst cut) = interrupted_bytechunk (fst whole)
    /\ bitsum (fst cut) = bitsum (fst whole).
Proof.
  induction buffers as [|b1 more IH]; intros st Hne Hall Hcuts Hwhole;
    [contradiction|].
  destruct more as [|b2 rest].
  - cbn [concat binary_calls] in *. rewrite app_nil_r in *.
    now repeat split.
  - inversion Hall as [|? ? Hb1 Hmore]; subst.
    inversion Hmore as [|? ? Hb2 _]; subst.
    destruct Hcuts as (Hlast & Hfirst & Hcuts).
    destruct (exists_last Hb1) as (s & z & ->).
    rewrite last_slice_snoc in Hlast.
    assert (Hz : z <> 252) by (intros ->; now apply Hlast).
    destruct b2 as [|b b2']; [contradiction|].
    assert (Hb : b <> 252) by (intros ->; now apply Hfirst).
    change (concat ((s ++ [z]) :: (b :: b2') :: rest))
      with ((s ++ [z]) ++ concat ((b :: b2') :: rest)) in *.
    change (concat ((b :: b2') :: rest)) with (b :: b2' ++ concat rest) in *.
    destruct (binary_branch_two_buffers st s (b2' ++ concat rest)
                (Py.strip 10 (s ++ [z]))
                (Py.strip 10 (b :: b2' ++ concat rest))
                (Py.strip 10 ((s ++ [z]) ++ b :: b2' ++ concat rest))
                z b Hz Hb Hwhole)
      as (H1 & H2 & Hy & Hf & Hbit & _).
    change (binary_calls st ((s ++ [z]) :: (b :: b2') :: rest))
      with (binary_calls
              (fst (binary_branch st (s ++ [z]) (Py.strip 10 (s ++ [z]))))
              ((b :: b2') :: rest)).
    destruct (IH (fst (binary_branch st (s ++ [z])
                         (Py.strip 10 (s ++ [z])))))
      as (Hc & Hcy & Hcf & Hcb);
      [discriminate | exact Hmore | exact Hcuts | exact H2 |].
    cbv zeta. rewrite Hc, Hcy, Hcf, Hcb.
    change (concat ((b :: b2') :: rest)) with (b :: b2' ++ concat rest).
    now repeat split.
Qed.

Lemma interpreter_calls_binary (buffers : list (list Z)) :
  forall st : state,
    buffers <> [] ->
    binaryblock st = true ->
    Forall (fun b => is_binary_data b = true) buffers ->
    interpreter_calls st buffers = fst (binary_calls st buffers).
Proof.
  induction buffers as [|b1 more IH]; intros st Hne Hbb Hall;
    [contradiction|].
  inversion Hall as [|? ? Hb1 Hmore]; subst.
  cbn [interpreter_calls]. rewrite (interpreter_binary st b1 Hbb Hb1).
  destruct more as [|b2 rest]; [reflexivity|].
  change (binary_calls st (b1 :: b2 :: rest))
    with (binary_calls (fst (binary_branch st b1 (Py.strip 10 b1)))
            (b2 :: rest)).
  apply IH; [discriminate | | exact Hmore].
  unfold binary_branch.
  destruct (interrupted_bytechunk st); [|exact Hbb].
  destruct (reassemble _ b1) as [C held].
  now destruct (bytechunk_interpreter C (ydata st)) as [y [e|]].
Qed.

(** X16. Fragmentation into any number of buffers.  Let a byte stream
    that [interpreter] decodes to its end in one call inside a binary block
    be cut into buffers, one or more, each of which reaches the binary
    branch, no cut touching a 252.  Then calling [interpreter] on the
    buffers in order leaves the same DecodedSpectrum, the same held chunk
    and the same bit count as the one call on the whole stream. *)
Theorem fragmented_stream_decodes_like_the_whole
  (st : state) (buffers : list (list Z)) :
  buffers <> [] ->
  binaryblock st = true ->
  Forall (fun b => is_binary_data b = true) buffers ->
  is_binary_data (concat buffers) = true ->
  cuts_clear_of_252 buffers ->
  snd (interpreter st (concat buffers)) = Finished ->
  let cut := interpreter_calls st buffers in
  let whole := fst (interpreter st (concat buffers)) in
  ydata cut = ydata whole
  /\ interrupted_bytechunk cut = interrupted_bytechunk whole
  /\ bitsum cut = bitsum whole.
Proof.
  intros Hne Hbb Hall Hconcat Hcuts Hwhole cut whole. subst cut whole.
  rewrite (interpreter_calls_binary buffers st Hne Hbb Hall).
  rewrite (interpreter_binary st _ Hbb Hconcat) in *.
  destruct (binary_calls_concat buffers st Hne) as (_ & Hy & Hf & Hb);
    try assumption.
  - apply Forall_impl with (2 := Hall). intros b.
    apply binary_data_nonempty.
  - now repeat split.
Qed.

Lemma fragmented_stream_decodes_like_the_whole_witness :
  let buffers := [[251; 3]; [44]; [1; 255; 251]; [2; 9; 255; 252]] in
  buffers <> []
  /\ binaryblock started_state = true
  /\ Forall (fun b => is_binary_data b = true) buffers
  /\ is_binary_data (concat buffers) = true
  /\ cuts_clear_of_252 buffers
  /\ snd (interpreter started_state (concat buffers)) = Finished
  /\ ydata (interpreter_calls started_state buffers)
     = [0; 0; 0; 294; 0; 0; 9; 0]
  /\ ydata (fst (interpreter started_state (concat buffers)))
     = [0; 0; 0; 294; 0; 0; 9; 0].
Proof.
  intros buffers.
  assert (H1 : buffers <> []) by discriminate.
  assert (H2 : binaryblock started_state = true) by reflexivity.
  assert (H3 : Forall (fun b => is_binary_data b = true) buffers)
    by (repeat constructor).
  assert (H4 : is_binary_data (concat buffers) = true) by reflexivity.
  assert (H5 : cuts_clear_of_252 buffers)
    by (cbn; repeat split; discriminate).
  assert (H6 : snd (interpreter started_state (concat buffers)) = Finished)
    by reflexivity.
  destruct (fragmented_stream_decodes_like_the_whole
              started_state buffers H1 H2 H3 H4 H5 H6) as (Hy & _).
  split; [exact H1|]. split; [exact H2|]. split; [exact H3|].
  split; [exact H4|]. split; [exact H5|]. split; [exact H6|].
  split; [rewrite Hy; reflexivity | reflexivity].
Defined.

(** ** The time readout *)

Lemma lstrip_space_incl (b : list Z) (x : Z) :
  In x (Py.lstrip_space b) -> In x b.
Proof.
  induction b as [|y b IH]; cbn [Py.lstrip_space]; [tauto|].
  destruct (Py.is_space y); [|tauto]. intros H. right. now apply IH.
Qed.

Lemma strip_space_incl (b : list Z) (x : Z) :
  In x (Py.strip_space b) -> In x b.
Proof.
  unfold Py.strip_space. intros H.
  apply in_rev, lstrip_space_incl in H.
  apply in_rev in H. now apply lstrip_space_incl.
Qed.

Lemma digits_nonneg (b : list Z) :
  forall (acc : Z) (after_digit : bool) (v : Z),
    0 <= acc -> Py.digits acc after_digit b = Some v -> 0 <= v.
Proof.
  induction b as [|x b IH]; intros acc flag v Hacc; cbn [Py.digits].
  - destruct flag; [|discriminate]. intros H. injection H as <-. exact Hacc.
  - destruct (Py.is_digit x) eqn:Ed.
    + apply IH. unfold Py.is_digit in Ed.
      apply andb_true_iff in Ed as [Ed _]. apply Z.leb_le in Ed. lia.
    + destruct ((x =? 95) && flag); [apply IH; exact Hacc | discriminate].
Qed.

Lemma int_of_time_class_nonneg (group : list Z) (t : Z) :
  Forall (fun x => in_time_class x = true) group ->
  Py.int group = Some t -> 0 <= t.
Proof.
  intros Hclass. unfold Py.int.
  destruct (Py.strip_space group) as [|x b'] eqn:Es; [discriminate|].
  assert (Hx : in_time_class x = true).
  { rewrite Forall_forall in Hclass. apply Hclass, strip_space_incl.
    rewrite Es. now left. }
  unfold in_time_class in Hx.
  destruct (x =? 45) eqn:E45.
  { apply Z.eqb_eq in E45. subst x. discriminate Hx. }
  destruct (x =? 43) eqn:E43.
  { apply Z.eqb_eq in E43. subst x. discriminate Hx. }
  apply digits_nonneg. lia.
Qed.

Lemma span_time_class_run (b : list Z) :
  Forall (fun x => in_time_class x = true) (fst (span_time_class b)).
Proof.
  induction b as [|x b IH]; cbn [span_time_class]; [constructor|].
  destruct (in_time_class x) eqn:Ex; [|constructor].
  destruct (span_time_class b) as [run rest]. now constructor.
Qed.

Lemma regex_time_first_groups (b rawtime counts : list Z) :
  regex_time_first b = Some (rawtime, counts) ->
  Forall (fun x => in_time_class x = true) rawtime
  /\ Forall (fun x => in_time_class x = true) counts.
Proof.
  induction b as [|x b IH].
  - discriminate.
  - cbn [regex_time_first].
    destruct (regex_time_match_here (x :: b)) as [groups|] eqn:Em;
      [|exact IH].
    intros H. injection H as ->.
    unfold regex_time_match_here in Em.
    destruct (Py.startswith (x :: b) [123; 116]); [|discriminate Em].
    pose proof (span_time_class_run (skipn 2 (x :: b))) as Hrun.
    destruct (span_time_class (skipn 2 (x :: b))) as [run rest].
    destruct (Py.startswith rest [82; 58]); [|discriminate Em].
    injection Em as <- <-.
    split; [exact Hrun | apply span_time_class_run].
Qed.

Lemma last_opt_snoc (l : list Z) (x : Z) : last_opt (l ++ [x]) = Some x.
Proof. unfold last_opt. now rewrite rev_app_distr. Qed.

Lemma last_opt_none (l : list Z) : last_opt l = None -> l = [].
Proof.
  unfold last_opt. destruct (rev l) eqn:E; [|discriminate].
  intros _. apply (f_equal (@rev Z)) in E. now rewrite rev_involutive in E.
Qed.

Lemma snoc_not_nil (l : list Z) (x : Z) : l ++ [x] <> [].
Proof. now destruct l. Qed.

(** X17. The time branch never reads the last point of an empty time
    axis.  On a panel whose two lists have the same length: if an empty
    axis goes with a negative [prevtime] and seconds mode, as at the start,
    it still does after a call of the branch; [xdata[-1]] is there when it
    is read, and an [IndexError] can only mean that the line does not match
    the pattern of a time line. *)
Theorem time_branch_never_reads_an_empty_axis
  (tp : timereadout) (receivedbytes : list Z) :
  length (time_xdata tp) = length (time_ydata tp) ->
  time_axis_ready tp ->
  time_axis_ready (fst (time_count_branch tp receivedbytes))
  /\ (snd (time_count_branch tp receivedbytes) = Raised IndexError ->
      regex_time_first receivedbytes = None).
Proof.
  unfold time_axis_ready, time_count_branch. intros _ Hready.
  destruct (regex_time_first receivedbytes) as [[rawtime counts]|] eqn:Er;
    [|now split].
  destruct (regex_time_first_groups _ _ _ Er) as [Hclass _].
  destruct (Py.int rawtime) as [t|] eqn:Et; [|split; [exact Hready|]].
  2:{ intros H. discriminate H. }
  pose proof (int_of_time_class_nonneg rawtime t Hclass Et) as Ht.
  destruct (t <? prevtime tp) eqn:Elt.
  - cbn [time_autosave_reinit non_sec_mode time_xdata].
    destruct (Py.int counts); cbn [fst snd time_xdata]; split;
      try discriminate; intros H; now apply snoc_not_nil in H.
  - destruct (t =? prevtime tp) eqn:Eeq.
    + apply Z.eqb_eq in Eeq. cbn [non_sec_mode time_xdata].
      destruct (last_opt (time_xdata tp)) as [l|] eqn:El.
      * cbn [option_map].
        destruct (Py.int counts); cbn [fst snd time_xdata]; split;
          try discriminate; intros H; now apply snoc_not_nil in H.
      * apply last_opt_none in El. apply Hready in El. lia.
    + destruct (non_sec_mode tp) eqn:Ens.
      * destruct (last_opt (time_xdata tp)) as [l|] eqn:El.
        -- cbn [option_map].
           destruct (Py.int counts); cbn [fst snd time_xdata]; split;
             try discriminate; intros H; now apply snoc_not_nil in H.
        -- apply last_opt_none in El. apply Hready in El.
           destruct El as [_ El]. discriminate El.
      * destruct (Py.int counts); cbn [fst snd time_xdata]; split;
          try discriminate; intros H; now apply snoc_not_nil in H.
Qed.

Lemma time_branch_never_reads_an_empty_axis_witness :
  let line := [123; 116; 32; 49; 50; 82; 58; 32; 51; 52; 53] in
  let tp := fst (time_count_branch (initial_timereadout true) line) in
  length (time_xdata tp) = length (time_ydata tp)
  /\ time_axis_ready tp
  /\ time_xdata tp = [12]
  /\ time_xdata (fst (time_count_branch tp line)) = [12; 13]
  /\ time_axis_ready (fst (time_count_branch tp line)).
Proof.
  intros line tp.
  assert (H0 : length (time_xdata tp) = length (time_ydata tp))
    by reflexivity.
  assert (H : time_axis_ready tp) by (intros E; discriminate E).
  split; [exact H0|].
  split; [exact H|]. split; [reflexivity|]. split; [reflexivity|].
  exact (proj1 (time_branch_never_reads_an_empty_axis tp line H0 H)).
Defined.

(** X18. The two axes of the time panel: from lists of equal length, a
    call of the time branch that runs to its end leaves lists of equal
    length, one point longer or, when time went backwards, one point long;
    a call that raises leaves them equal or, when it is the count that
    cannot be read, leaves [xdata] one longer than [ydata]. *)
Theorem time_axes_lengths (tp : timereadout) (receivedbytes : list Z) :
  length (time_xdata tp) = length (time_ydata tp) ->
  let tp' := fst (time_count_branch tp receivedbytes) in
  let out := snd (time_count_branch tp receivedbytes) in
  (out = Finished ->
   length (time_xdata tp') = length (time_ydata tp')
   /\ (length (time_ydata tp') = S (length (time_ydata tp))
       \/ length (time_ydata tp') = 1%nat))
  /\ (out <> Finished ->
      length (time_xdata tp') = length (time_ydata tp')
      \/ length (time_xdata tp') = S (length (time_ydata tp'))).
Proof.
  intros Hlen tp' out. subst tp' out. unfold time_count_branch.
  destruct (regex_time_first receivedbytes) as [[rawtime counts]|];
    [|split; [discriminate | now left]].
  destruct (Py.int rawtime) as [t|]; [|split; [discriminate | now left]].
  set (tp1 := if t <? prevtime tp then time_autosave_reinit tp
              else if t =? prevtime tp then _ else tp).
  assert (H1 : length (time_xdata tp1) = length (time_ydata tp1)
               /\ (length (time_ydata tp1) = length (time_ydata tp)
                   \/ length (time_ydata tp1) = 0%nat)).
  { subst tp1. destruct (t <? prevtime tp); [now split; [|right]|].
    destruct (t =? prevtime tp); (split; [exact Hlen | now left]). }
  destruct H1 as [H1 H1'].
  destruct (if non_sec_mode tp1 then _ else Some t) as [x|];
    [|split; [discriminate | now left]].
  destruct (Py.int counts) as [c|]; cbn [fst snd time_xdata time_ydata];
    rewrite ?length_app; cbn [length].
  - split; [|intros H; now elim H]. intros _. split; [lia|].
    destruct H1' as [-> | ->]; [left | right]; lia.
  - split; [discriminate|]. intros _. right. lia.
Qed.

Lemma time_axes_lengths_witness :
  let good := [123; 116; 32; 49; 50; 82; 58; 32; 51; 52; 53] in
  let bad := [123; 116; 32; 49; 51; 82; 58; 120] in
  let tp := fst (time_count_branch (initial_timereadout true) good) in
  length (time_xdata tp) = length (time_ydata tp)
  /\ snd (time_count_branch tp bad) = Raised ValueError
  /\ time_xdata (fst (time_count_branch tp bad)) = [12; 13]
  /\ time_ydata (fst (time_count_branch tp bad)) = [345]
  /\ (length (time_xdata (fst (time_count_branch tp bad)))
      = length (time_ydata (fst (time_count_branch tp bad)))
      \/ length (time_xdata (fst (time_count_branch tp bad)))
         = S (length (time_ydata (fst (time_count_branch tp bad))))).
Proof.
  intros good bad tp.
  assert (H : length (time_xdata tp) = length (time_ydata tp))
    by reflexivity.
  split; [exact H|]. split; [reflexivity|]. split; [reflexivity|].
  split; [reflexivity|].
  apply (proj2 (time_axes_lengths tp bad H)). discriminate.
Defined.

Lemma increasing_snoc (l : list Z) (x : Z) :
  increasing l ->
  (forall y, last_opt l = Some y -> y < x) ->
  increasing (l ++ [x]).
Proof.
  induction l as [|a l IH]; intros Hinc Hlast; [exact I|].
  destruct l as [|b l].
  - cbn. split; [|exact I]. apply Hlast. reflexivity.
  - destruct Hinc as [Hab Hinc]. cbn [app increasing].
    split; [exact Hab|]. apply IH; [exact Hinc|].
    intros y Hy. apply Hlast.
    unfold last_opt in *. cbn [rev] in *.
    destruct (rev l ++ [b]) as [|z zs] eqn:E;
      [now destruct (rev l) | exact Hy].
Qed.

(** X19. The time axis grows: if the two lists of the time panel have
    the same length and its points have growing abscissas, ending with
    [prevtime] in seconds mode, a call of
    the time branch that runs to its end leaves them so, whether it
    records the time it reads, counts on by one, or starts over because
    time went backwards. *)
Theorem time_axis_stays_ordered (tp : timereadout) (receivedbytes : list Z) :
  length (time_xdata tp) = length (time_ydata tp) ->
  time_axis_ordered tp ->
  snd (time_count_branch tp receivedbytes) = Finished ->
  time_axis_ordered (fst (time_count_branch tp receivedbytes)).
Proof.
  unfold time_axis_ordered, time_count_branch. intros _ [Hinc Hsec].
  destruct (regex_time_first receivedbytes) as [[rawtime counts]|];
    [|discriminate].
  destruct (Py.int rawtime) as [t|]; [|discriminate].
  destruct (t <? prevtime tp) eqn:Elt.
  - cbn [time_autosave_reinit non_sec_mode time_xdata].
    destruct (Py.int counts); [|discriminate]. intros _.
    cbn [fst time_xdata non_sec_mode prevtime app]. split; [exact I|].
    intros _ x H. now injection H.
  - apply Z.ltb_ge in Elt. destruct (t =? prevtime tp) eqn:Eeq.
    + cbn [non_sec_mode time_xdata].
      destruct (last_opt (time_xdata tp)) as [l|] eqn:El; [|discriminate].
      cbn [option_map]. destruct (Py.int counts); [|discriminate].
      intros _. cbn [fst time_xdata non_sec_mode prevtime]. split.
      * apply increasing_snoc; [exact Hinc|].
        intros y Hy. rewrite El in Hy. injection Hy as <-. lia.
      * discriminate.
    + apply Z.eqb_neq in Eeq. destruct (non_sec_mode tp) eqn:Ens.
      * destruct (last_opt (time_xdata tp)) as [l|] eqn:El; [|discriminate].
        cbn [option_map]. destruct (Py.int counts); [|discriminate].
        intros _. cbn [fst time_xdata non_sec_mode prevtime]. split.
        -- apply increasing_snoc; [exact Hinc|].
           intros y Hy. rewrite El in Hy. injection Hy as <-. lia.
        -- discriminate.
      * destruct (Py.int counts); [|discriminate].
        intros _. cbn [fst time_xdata non_sec_mode prevtime]. split.
        -- apply increasing_snoc; [exact Hinc|].
           intros y Hy. rewrite (Hsec eq_refl y Hy). lia.
        -- intros _ x. rewrite last_opt_snoc. intros H. now injection H.
Qed.

Lemma time_axis_stays_ordered_witness :
  let line12 := [123; 116; 32; 49; 50; 82; 58; 32; 51; 52; 53] in
  let line15 := [123; 116; 32; 49; 53; 82; 58; 32; 51; 52; 54] in
  let tp := fst (time_count_branch (initial_timereadout true) line12) in
  length (time_xdata tp) = length (time_ydata tp)
  /\ time_axis_ordered tp
  /\ snd (time_count_branch tp line15) = Finished
  /\ time_xdata (fst (time_count_branch tp line15)) = [12; 15]
  /\ time_axis_ordered (fst (time_count_branch tp line15)).
Proof.
  intros line12 line15 tp.
  assert (H0 : length (time_xdata tp) = length (time_ydata tp))
    by reflexivity.
  split; [exact H0|].
  assert (H1 : time_axis_ordered tp).
  { split; [exact I|]. intros _ x H. now injection H. }
  assert (H2 : snd (time_count_branch tp line15) = Finished)
    by reflexivity.
  split; [exact H1|]. split; [exact H2|]. split; [reflexivity|].
  exact (time_axis_stays_ordered tp line15 H0 H1 H2).
Defined.

(** ** A buffer of whole chunks *)

Lemma split_no_separator (c : list Z) :
  ~ In 255 c -> Py.split 255 c = [c].
Proof.
  induction c as [|x c IH]; intros Hc; [reflexivity|].
  rewrite split_cons_eq.
  destruct (x =? 255) eqn:E.
  - apply Z.eqb_eq in E. subst x. elim Hc. now left.
  - rewrite IH; [reflexivity|]. intros H. apply Hc. now right.
Qed.

Lemma split_chunk_then_separator (c rest : list Z) :
  ~ In 255 c -> Py.split 255 (c ++ 255 :: rest) = c :: Py.split 255 rest.
Proof.
  intros Hc. destruct (split_app 255 c) as (init & L & Hs & Happ).
  rewrite (split_no_separator c Hc) in Hs.
  destruct init as [|i init].
  - injection Hs as <-.
    rewrite (Happ (255 :: rest) [] (Py.split 255 rest)) by reflexivity.
    cbn [app]. now rewrite app_nil_r.
  - apply (f_equal (@length (list Z))) in Hs.
    rewrite length_app in Hs. cbn in Hs. lia.
Qed.

Lemma split_of_join (chunks : list (list Z)) :
  chunks <> [] ->
  Forall (fun c => ~ In 255 c) chunks ->
  Py.split 255 (bytes_join 255 chunks) = chunks.
Proof.
  induction chunks as [|c cs IH]; intros Hne Hall; [contradiction|].
  inversion Hall as [|? ? Hc Hcs]; subst.
  destruct cs as [|c' cs].
  - cbn [bytes_join]. now apply split_no_separator.
  - change (bytes_join 255 (c :: c' :: cs))
      with (c ++ 255 :: bytes_join 255 (c' :: cs)).
    rewrite split_chunk_then_separator by exact Hc.
    rewrite IH; [reflexivity | discriminate | exact Hcs].
Qed.

Lemma join_closed (chunks : list (list Z)) :
  chunks <> [] ->
  bytes_join 255 (chunks ++ [[]]) = bytes_join 255 chunks ++ [255].
Proof.
  induction chunks as [|c cs IH]; intros Hne; [contradiction|].
  destruct cs as [|c' cs].
  - reflexivity.
  - change (bytes_join 255 ((c :: c' :: cs) ++ [[]]))
      with (c ++ 255 :: bytes_join 255 ((c' :: cs) ++ [[]])).
    rewrite IH by discriminate.
    change (bytes_join 255 (c :: c' :: cs))
      with (c ++ 255 :: bytes_join 255 (c' :: cs)).
    now rewrite <- app_assoc.
Qed.

Lemma bytechunk_interpreter_all_entries (bytechunks : list (list Z))
  (ydata : list Z) :
  Forall (fun c => snd (interpret_chunk c []) = None) bytechunks ->
  bytechunk_interpreter bytechunks ydata
  = (ydata ++ concat (map chunk_entries bytechunks), None).
Proof.
  intros Hall. revert ydata.
  induction Hall as [|c cs Hc _ IH]; intros ydata.
  - cbn. now rewrite app_nil_r.
  - cbn [bytechunk_interpreter map concat].
    rewrite interpret_chunk_entries, Hc, IH. now rewrite app_assoc.
Qed.

(** X20. A buffer of whole chunks is decoded chunk by chunk.  Take chunks
    without separator bytes, none of which raises on its own, and send
    them in one buffer, each followed by the separator 255.  Inside a
    binary block, with no chunk held from before, the call runs to its
    end, DecodedSpectrum grows by the entries of the chunks in order, and
    no chunk is held back. *)
Theorem whole_chunks_are_decoded_in_order
  (st : state) (chunks : list (list Z)) :
  let rawbytes := bytes_join 255 (chunks ++ [[]]) in
  chunks <> [] ->
  Forall (fun c => ~ In 255 c) chunks ->
  Forall (fun c => snd (interpret_chunk c []) = None) chunks ->
  binaryblock st = true ->
  interrupted_bytechunk st = Some [] ->
  is_binary_data rawbytes = true ->
  snd (interpreter st rawbytes) = Finished
  /\ ydata (fst (interpreter st rawbytes))
     = ydata st ++ concat (map chunk_entries chunks)
  /\ interrupted_bytechunk (fst (interpreter st rawbytes)) = Some [].
Proof.
  intros rawbytes Hne Hsep Hok Hbb Hheld Hdata.
  rewrite (interpreter_binary st rawbytes Hbb Hdata).
  unfold binary_branch. rewrite Hheld.
  assert (Hre : reassemble [] rawbytes = (chunks ++ [[]], [])).
  { unfold reassemble, merge_interrupted, hold_last. cbn [Py.bytes_eqb negb].
    subst rawbytes. rewrite split_of_join.
    - rewrite (join_closed chunks Hne), last_slice_snoc. reflexivity.
    - now destruct chunks.
    - apply Forall_app. split; [exact Hsep|].
      constructor; [intros [] | constructor]. }
  rewrite Hre, bytechunk_interpreter_all_entries.
  - cbn [fst snd ydata interrupted_bytechunk].
    rewrite map_app, concat_app. cbn [map concat chunk_entries].
    repeat split. now rewrite !app_nil_r.
  - apply Forall_app. split; [exact Hok | now repeat constructor].
Qed.

Lemma whole_chunks_are_decoded_in_order_witness :
  let chunks := [[251; 3; 44; 1]; [7]; [251; 251; 251; 2]] in
  chunks <> []
  /\ Forall (fun c => ~ In 255 c) chunks
  /\ Forall (fun c => snd (interpret_chunk c []) = None) chunks
  /\ binaryblock started_state = true
  /\ interrupted_bytechunk started_state = Some []
  /\ is_binary_data (bytes_join 255 (chunks ++ [[]])) = true
  /\ bytes_join 255 (chunks ++ [[]])
     = [251; 3; 44; 1; 255; 7; 255; 251; 251; 251; 2; 255]
  /\ ydata (fst (interpreter started_state
                   (bytes_join 255 (chunks ++ [[]]))))
     = [0; 0; 0; 294; 7] ++ repeat 0 253.
Proof.
  intros chunks.
  assert (H1 : chunks <> []) by discriminate.
  assert (H2 : Forall (fun c => ~ In 255 c) chunks).
  { repeat constructor; cbn; intuition discriminate. }
  assert (H3 : Forall (fun c => snd (interpret_chunk c []) = None) chunks)
    by (repeat constructor).
  assert (H4 : binaryblock started_state = true) by reflexivity.
  assert (H5 : interrupted_bytechunk started_state = Some [])
    by reflexivity.
  assert (H6 : is_binary_data (bytes_join 255 (chunks ++ [[]])) = true)
    by reflexivity.
  destruct (whole_chunks_are_decoded_in_order started_state chunks
              H1 H2 H3 H4 H5 H6) as (_ & Hy & _).
  split; [exact H1|]. split; [exact H2|]. split; [exact H3|].
  split; [exact H4|]. split; [exact H5|]. split; [exact H6|].
  split; [reflexivity|]. rewrite Hy. reflexivity.
Defined.
